(** * Validated sales chart renderer: [f_2258]

    A shallow embedding of [src/data/raw/f_2258_junda_james.py].  The
    function receives a pandas [DataFrame] and two column names, checks the
    frame, and draws a bar chart through [Series.plot] and [pyplot].

    The function is effectful: it writes to the root logger, it raises, and
    it draws on pyplot's current axes, an object shared with every other
    caller of pyplot.  The embedding therefore threads an explicit [World]
    (object store of frames, log, pyplot registry) through a small
    state-and-exception monad. *)

From Stdlib Require Import ZArith QArith.
From stdpp Require Import base option list strings gmap.

Local Open Scope Z_scope.
Local Open Scope string_scope.
Local Open Scope list_scope.
Local Open Scope stdpp_scope.

(** ** Cells and dtypes *)

(** The values a cell of a frame may hold.  Two missing-value sentinels
    are told apart, as pandas does on object columns: [SNaN] is the float
    nan and [SNone] is Python's [None].  ([pd.NA] and [NaT] have no
    constructor.) *)
Inductive scalar : Type :=
  | SInt (n : Z)
  | SFloat (q : Q)
  | SBool (b : bool)
  | SStr (s : string)
  | SNaN
  | SNone.

(** numpy's [dtype.kind]: one character per family of dtypes. *)
Inductive dtype_kind : Type :=
  | KBool | KInt | KUInt | KFloat | KComplex
  | KTimedelta | KDatetime | KObject | KBytes | KUnicode | KVoid.

Definition kind_code (k : dtype_kind) : string :=
  match k with
  | KBool => "b" | KInt => "i" | KUInt => "u" | KFloat => "f"
  | KComplex => "c" | KTimedelta => "m" | KDatetime => "M"
  | KObject => "O" | KBytes => "S" | KUnicode => "U" | KVoid => "V"
  end.

(** Python's [a in b] on two [str]: [a] occurs in [b] as a substring. *)
Fixpoint prefix_of (a b : string) : bool :=
  match a, b with
  | EmptyString, _ => true
  | String x a', String y b' => if Ascii.eqb x y then prefix_of a' b' else false
  | String _ _, EmptyString => false
  end.

Fixpoint str_in (a b : string) : bool :=
  prefix_of a b ||
  match b with
  | EmptyString => false
  | String _ b' => str_in a b'
  end.

(** ** Series and frames *)

Record Column : Type := mkColumn {
  c_kind : dtype_kind;
  c_values : list scalar
}.

Record Series : Type := mkSeries {
  s_name : option string;
  s_kind : dtype_kind;
  s_index_name : option string;
  s_index : list scalar;
  s_values : list scalar
}.

Record DataFrame : Type := mkDataFrame {
  df_index_name : option string;
  df_index : list scalar;
  df_columns : gmap string Column
}.

(** Every column of a frame has one cell per row. *)
Definition df_wf (df : DataFrame) : Prop :=
  ∀ name c, df_columns df !! name = Some c →
            length (c_values c) = length (df_index df).

(** ** Charts *)

(** One bar: its slot on the x axis and its height. *)
Record Rectangle : Type := mkRectangle {
  rect_pos : nat;
  rect_height : scalar
}.

Record Axes : Type := mkAxes {
  ax_patches : list Rectangle;
  ax_title : string;
  ax_xlabel : string;
  ax_ylabel : string;
  ax_xticklabels : list scalar
}.

Definition empty_axes : Axes :=
  {| ax_patches := []; ax_title := ""; ax_xlabel := ""; ax_ylabel := "";
     ax_xticklabels := [] |}.

(** ** Logging *)

Inductive level : Type := DEBUG | INFO | WARNING | ERROR | CRITICAL.

Definition levelno (l : level) : Z :=
  match l with
  | DEBUG => 10 | INFO => 20 | WARNING => 30 | ERROR => 40 | CRITICAL => 50
  end.

Record LogRecord : Type := mkLogRecord {
  lr_level : level;
  lr_msg : string
}.

(** ** Exceptions and Python results *)

Inductive exn : Type :=
  | ValueError (msg : string)
  | KeyError (key : string)
  | TypeError (msg : string)
  | ReferenceError.

(** What a call evaluates to: [None] or a reference to an axes object. *)
Inductive pyobj : Type :=
  | PyNone
  | PyAxes (h : nat).

(** ** The world and the monad *)

(** [w_frames] is the store of frame objects, addressed by reference.
    [w_figures] is pyplot's registry of open figures in activation order,
    each with its axes; the last one is the current figure, and an axes
    object is referred to by its position.  [w_shown] records what every
    call of [plt.show] put on the output surface. *)
Record World : Type := mkWorld {
  w_frames : gmap nat DataFrame;
  w_log : list LogRecord;
  w_figures : list Axes;
  w_shown : list (list Axes)
}.

Inductive outcome (A : Type) : Type :=
  | Returns (a : A)
  | Raises (e : exn).
Arguments Returns {A} a.
Arguments Raises {A} e.

(** A computation runs in a world, ends by returning or raising, and
    leaves a world behind in both cases. *)
Definition M (A : Type) : Type := World → outcome A * World.

#[global] Instance M_ret : MRet M := λ A a w, (Returns a, w).

#[global] Instance M_bind : MBind M := λ A B k m w,
  match m w with
  | (Returns a, w') => k a w'
  | (Raises e, w') => (Raises e, w')
  end.

Definition raise {A : Type} (e : exn) : M A := λ w, (Raises e, w).

Definition lift {A : Type} (o : outcome A) : M A := λ w, (o, w).

Definition set_log (l : list LogRecord) (w : World) : World :=
  {| w_frames := w_frames w; w_log := l;
     w_figures := w_figures w; w_shown := w_shown w |}.

Definition set_figures (fs : list Axes) (w : World) : World :=
  {| w_frames := w_frames w; w_log := w_log w;
     w_figures := fs; w_shown := w_shown w |}.

Definition set_shown (s : list (list Axes)) (w : World) : World :=
  {| w_frames := w_frames w; w_log := w_log w;
     w_figures := w_figures w; w_shown := s |}.

Definition set_frames (fr : gmap nat DataFrame) (w : World) : World :=
  {| w_frames := fr; w_log := w_log w;
     w_figures := w_figures w; w_shown := w_shown w |}.

(** ** logging *)

(** Line 5 of the module: [logging.basicConfig(level=logging.INFO, ...)]. *)
Definition root_level : level := INFO.

(** [logging.error(msg)]: one record at ERROR, if the root logger lets
    that level through. *)
Definition logging_error (msg : string) : M unit := λ w,
  if (levelno root_level <=? levelno ERROR)%Z
  then (Returns tt, set_log (w_log w ++ [mkLogRecord ERROR msg]) w)
  else (Returns tt, w).

(** ** pandas *)

(** Reading the frame behind a reference.  A Python name always refers to
    an object; a reference outside the store makes the model raise, so
    that every operation is total. *)
Definition deref (df : nat) : M DataFrame := λ w,
  match w_frames w !! df with
  | Some d => (Returns d, w)
  | None => (Raises ReferenceError, w)
  end.

(** [df.empty]: some axis has length 0. *)
Definition frame_empty (d : DataFrame) : bool :=
  (length (df_index d) =? 0)%nat || (size (df_columns d) =? 0)%nat.

Definition DataFrame_empty (df : nat) : M bool :=
  d ← deref df; mret (frame_empty d).

(** [d[key]] for a column label: the column as a series over the frame's
    index, or [KeyError(key)]. *)
Definition frame_getitem (d : DataFrame) (key : string) : outcome Series :=
  match df_columns d !! key with
  | Some c => Returns {| s_name := Some key; s_kind := c_kind c;
                         s_index_name := df_index_name d;
                         s_index := df_index d; s_values := c_values c |}
  | None => Raises (KeyError key)
  end.

Definition DataFrame_getitem (df : nat) (key : string) : M Series :=
  d ← deref df; lift (frame_getitem d key).

(** The number a cell stands for, when it is a number.  Python's [bool]
    is a subclass of [int]. *)
Definition scalar_num (v : scalar) : option Q :=
  match v with
  | SInt n => Some (inject_Z n)
  | SFloat q => Some q
  | SBool b => Some (inject_Z (Z.b2z b))
  | SStr _ | SNaN | SNone => None
  end.

(** Equality of two cells as keys of the hash table behind
    [duplicated]: Python's [==], and a missing-value sentinel equal to
    itself only (nan to nan, [None] to [None], never nan to [None]). *)
Definition key_eqb (a b : scalar) : bool :=
  match a, b with
  | SStr s, SStr t => String.eqb s t
  | SNaN, SNaN => true
  | SNone, SNone => true
  | _, _ =>
      match scalar_num a, scalar_num b with
      | Some p, Some q => Qeq_bool p q
      | _, _ => false
      end
  end.

(** [duplicated(keep='first')]: a cell is flagged when an earlier cell
    holds the same key. *)
Fixpoint duplicated_flags (seen vs : list scalar) : list bool :=
  match vs with
  | [] => []
  | v :: vs' => existsb (key_eqb v) seen :: duplicated_flags (v :: seen) vs'
  end.

Definition Series_duplicated (s : Series) : Series :=
  {| s_name := s_name s; s_kind := KBool;
     s_index_name := s_index_name s; s_index := s_index s;
     s_values := SBool <$> duplicated_flags [] (s_values s) |}.

Definition truthy (v : scalar) : bool :=
  match v with
  | SInt n => negb (n =? 0)%Z
  | SFloat q => negb (Qeq_bool q 0)
  | SBool b => b
  | SStr s => negb (String.eqb s "")
  | SNaN => true
  | SNone => false
  end.

Definition Series_any (s : Series) : bool := existsb truthy (s_values s).

Definition store_frame (df : nat) (d : DataFrame) : M unit := λ w,
  (Returns tt, set_frames (<[df := d]> (w_frames w)) w).

(** [df.set_index(keys, drop=True, inplace=...)]: the cells of column
    [keys] become the index and the column leaves the frame.  With
    [inplace=False] the result is a new frame and the receiver is not
    touched; with [inplace=True] the receiver is overwritten and the call
    evaluates to [None]. *)
Definition DataFrame_set_index (df : nat) (keys : string) (inplace : bool)
  : M (option DataFrame) :=
  d ← deref df;
  match df_columns d !! keys return M (option DataFrame) with
  | None => raise (KeyError ("None of ['" +:+ keys +:+ "'] are in the columns"))
  | Some c =>
      let d' := {| df_index_name := Some keys; df_index := c_values c;
                   df_columns := delete keys (df_columns d) |} in
      if inplace
      then store_frame df d';; mret None
      else mret (Some d')
  end.

(** [o[key]] on what [set_index] evaluated to. *)
Definition subscript (o : option DataFrame) (key : string) : M Series :=
  match o with
  | Some d => lift (frame_getitem d key)
  | None => raise (TypeError "'NoneType' object is not subscriptable")
  end.

(** ** pyplot and [Series.plot] *)

(** [plt.gca()]: the axes of the current figure; a figure with one empty
    axes is opened first when none is open. *)
Definition plt_gca : M nat := λ w,
  match w_figures w with
  | [] => (Returns 0%nat, set_figures [empty_axes] w)
  | _ :: _ => (Returns (length (w_figures w) - 1)%nat, w)
  end.

(** In-place update of the axes object behind a handle. *)
Definition update_axes (h : nat) (f : Axes → Axes) : M unit := λ w,
  (Returns tt, set_figures (alter f h (w_figures w)) w).

Definition set_ylabel (label : string) (ax : Axes) : Axes :=
  {| ax_patches := ax_patches ax; ax_title := ax_title ax;
     ax_xlabel := ax_xlabel ax; ax_ylabel := label;
     ax_xticklabels := ax_xticklabels ax |}.

(** [plt.ylabel(label)] is [plt.gca().set_ylabel(label)]. *)
Definition plt_ylabel (label : string) : M unit :=
  ax ← plt_gca; update_axes ax (set_ylabel label).

(** [plt.show()]: every open figure goes to the output surface. *)
Definition plt_show : M unit := λ w,
  (Returns tt, set_shown (w_shown w ++ [w_figures w]) w).

(** The dtypes pandas keeps when it prepares the data of a plot: numbers,
    datetimes and timedeltas.  Booleans are left out unless the caller
    passes [include_bool=True].  (pandas re-infers the dtype of an object
    column before this filter; [f_2258] never plots one, its dtype check
    raises first, and the model keeps the tag of the column.) *)
Definition plottable (k : dtype_kind) : bool :=
  match k with
  | KInt | KUInt | KFloat | KComplex | KDatetime | KTimedelta => true
  | KBool | KObject | KBytes | KUnicode | KVoid => false
  end.

(** The bar plot draws [data.fillna(0)]: 0.0 for a nan of a float
    column, 0 for a [None]. *)
Definition fillna0 (v : scalar) : scalar :=
  match v with
  | SNaN => SFloat 0
  | SNone => SInt 0
  | _ => v
  end.

(** One rectangle per entry of the series, in order, slot [i] for entry [i]. *)
Definition bars_of (vs : list scalar) : list Rectangle :=
  imap (λ i v, mkRectangle i (fillna0 v)) vs.

Definition draw_bars (s : Series) (title : string) (ax : Axes) : Axes :=
  {| ax_patches := ax_patches ax ++ bars_of (s_values s);
     ax_title := title;
     ax_xlabel := default (ax_xlabel ax) (s_index_name s);
     ax_ylabel := ax_ylabel ax;
     ax_xticklabels := s_index s |}.

(** [s.plot(kind='bar', title=title)].  The axes comes first: a series
    plots on the current axes when a figure is open ([reuse_plot]), and a
    new figure with an empty axes is opened otherwise.  The data is
    filtered next, and a series with nothing left to plot raises with that
    axes left as it is.  Otherwise the bars are added to the patches the
    axes already holds, and the call evaluates to the axes. *)
Definition Series_plot_bar (s : Series) (title : string) : M nat :=
  ax ← plt_gca;
  if plottable (s_kind s)
  then update_axes ax (draw_bars s title);; mret ax
  else raise (TypeError "no numeric data to plot").

(** ** The function *)

Definition MSG_INVALID : string :=
  "DataFrame is empty, lacks sales data, or sales data is not numeric.".

Definition MSG_DUPLICATE : string :=
  "DataFrame contains duplicate entries in the category column.".

Definition f_2258 (df : nat) (category_col sales_col : string) : M pyobj :=
  (* if df.empty or not df[sales_col].dtype.kind in 'biufc': *)
  empty ← DataFrame_empty df;
  invalid ← (if empty : bool then mret true
             else sales ← DataFrame_getitem df sales_col;
                  mret (negb (str_in (kind_code (s_kind sales)) "biufc")));
  if invalid : bool then
    logging_error MSG_INVALID;;
    raise (ValueError MSG_INVALID)
  else
    (* if df[category_col].duplicated().any(): *)
    category ← DataFrame_getitem df category_col;
    if Series_any (Series_duplicated category) then
      logging_error MSG_DUPLICATE;;
      raise (ValueError MSG_DUPLICATE)
    else
      (* ax = df.set_index(category_col)[sales_col].plot(kind='bar', title=...) *)
      rekeyed ← DataFrame_set_index df category_col false;
      series ← subscript rekeyed sales_col;
      ax ← Series_plot_bar series "Sales Report by Category";
      plt_ylabel "Sales";;
      plt_show;;
      mret (PyAxes ax).

(** ** Sample data: the frame of the module's tests *)

Definition sample_frame : DataFrame :=
  {| df_index_name := None;
     df_index := [SInt 0; SInt 1; SInt 2; SInt 3; SInt 4];
     df_columns :=
       {[ "Category" := mkColumn KObject
            [SStr "Electronics"; SStr "Clothing"; SStr "Home";
             SStr "Books"; SStr "Sports"];
          "Sales" := mkColumn KInt
            [SInt 1000; SInt 1500; SInt 1200; SInt 800; SInt 1100] ]} |}.

Definition world_of (d : DataFrame) : World :=
  {| w_frames := {[ 0%nat := d ]}; w_log := []; w_figures := []; w_shown := [] |}.


(** ** Vocabulary of the specification *)

(** The numeric kinds by name: integer, unsigned integer, float, complex
    and boolean. *)
Definition numeric_kind (k : dtype_kind) : bool :=
  match k with
  | KBool | KInt | KUInt | KFloat | KComplex => true
  | KTimedelta | KDatetime | KObject | KBytes | KUnicode | KVoid => false
  end.

(** Some value sits in two different rows. *)
Definition has_duplicate (vs : list scalar) : Prop :=
  ∃ i j a b, i ≠ j ∧ vs !! i = Some a ∧ vs !! j = Some b ∧ key_eqb a b = true.

(** The world after [logging.error(msg)]. *)
Definition logged (msg : string) (w : World) : World :=
  set_log (w_log w ++ [mkLogRecord ERROR msg]) w.

(** The bars on the current axes, none when no figure is open. *)
Definition current_patches (w : World) : list Rectangle :=
  from_option ax_patches [] (last (w_figures w)).

(** The series that reaches [plot]: sales cells keyed by category cells. *)
Definition keyed_series (cat sales : string) (cc cs : Column) : Series :=
  {| s_name := Some sales; s_kind := c_kind cs;
     s_index_name := Some cat; s_index := c_values cc;
     s_values := c_values cs |}.

(** The open figures once [plt.gca()] has run. *)
Definition open_figs (w : World) : list Axes :=
  match w_figures w with
  | [] => [empty_axes]
  | _ :: _ => w_figures w
  end.

(** The handle [plt.gca()] evaluates to. *)
Definition drawn_handle (w : World) : nat := (length (open_figs w) - 1)%nat.

(** The world after the three drawing statements of the success path. *)
Definition drawn (s : Series) (w : World) : World :=
  let figs' := alter (set_ylabel "Sales") (drawn_handle w)
                 (alter (draw_bars s "Sales Report by Category")
                    (drawn_handle w) (open_figs w)) in
  set_shown (w_shown w ++ [figs']) (set_figures figs' w).

(** The axes [plt.gca()] hands out: the current one, or a new empty one. *)
Definition current_axes (w : World) : Axes :=
  default empty_axes (last (w_figures w)).

(** Every run of [f_2258] takes one of these paths. *)
Inductive path (w : World) (df : nat) (category_col sales_col : string)
  : outcome pyobj * World → Prop :=
  | path_dangling :
      w_frames w !! df = None →
      path w df category_col sales_col (Raises ReferenceError, w)
  | path_invalid :
      path w df category_col sales_col
        (Raises (ValueError MSG_INVALID), logged MSG_INVALID w)
  | path_duplicate :
      path w df category_col sales_col
        (Raises (ValueError MSG_DUPLICATE), logged MSG_DUPLICATE w)
  | path_key (key : string) :
      path w df category_col sales_col (Raises (KeyError key), w)
  | path_type (msg : string) :
      path w df category_col sales_col
        (Raises (TypeError msg), set_figures (open_figs w) w)
  | path_success (d : DataFrame) (cs cc : Column) :
      w_frames w !! df = Some d →
      frame_empty d = false →
      df_columns d !! sales_col = Some cs →
      numeric_kind (c_kind cs) = true →
      df_columns d !! category_col = Some cc →
      ¬ has_duplicate (c_values cc) →
      category_col ≠ sales_col →
      plottable (c_kind cs) = true →
      path w df category_col sales_col
        (Returns (PyAxes (drawn_handle w)),
         drawn (keyed_series category_col sales_col cc cs) w).

(** One bar per row of [d]: as many bars as rows, bar [i] in slot [i] with
    the height [height v] for the sales cell [v] of row [i]. *)
Definition row_bars (d : DataFrame) (height : scalar → scalar)
    (vs : list scalar) (ax : Axes) : Prop :=
  length (ax_patches ax) = length (df_index d) ∧
  ∀ i v, vs !! i = Some v →
         ax_patches ax !! i = Some (mkRectangle i (height v)).

(** The call returns a handle, and the axes behind it shows the rows of
    [d] as bars, labelled and titled. *)
Definition renders (height : scalar → scalar) (w : World) (df : nat)
    (category_col sales_col : string) (d : DataFrame) (cs : Column) : Prop :=
  ∃ h w' ax,
    f_2258 df category_col sales_col w = (Returns (PyAxes h), w') ∧
    w_figures w' !! h = Some ax ∧
    row_bars d height (c_values cs) ax ∧
    ax_ylabel ax = "Sales" ∧
    ax_title ax = "Sales Report by Category".

(** A chart is complete when the bars of this call follow the bars that
    were on the axes before, and title, y label and tick labels are set. *)
Definition complete_chart (before : list Rectangle) (cc cs : Column)
    (ax : Axes) : Prop :=
  ax_patches ax = before ++ bars_of (c_values cs) ∧
  ax_title ax = "Sales Report by Category" ∧
  ax_ylabel ax = "Sales" ∧
  ax_xticklabels ax = c_values cc.

(** Bar [r] shows the cell [v] of row [i]: it sits in slot [i] and is as
    high as the cell says, 0.0 for a nan and 0 for a [None]. *)
Definition bar_shows (i : nat) (v : scalar) (r : Rectangle) : Prop :=
  rect_pos r = i ∧
  match v with
  | SNaN => rect_height r = SFloat 0
  | SNone => rect_height r = SInt 0
  | SInt _ | SFloat _ | SBool _ | SStr _ => rect_height r = v
  end.

(** An axes that held [before] bars has got one more bar per cell of
    [vs], after the old ones and in the order of the cells. *)
Definition bars_added (before : nat) (vs : list scalar) (ax : Axes) : Prop :=
  length (ax_patches ax) = (before + length vs)%nat ∧
  ∀ i v, vs !! i = Some v →
         ∃ r, ax_patches ax !! (before + i)%nat = Some r ∧ bar_shows i v r.

Definition sample_sales : Column :=
  mkColumn KInt [SInt 1000; SInt 1500; SInt 1200; SInt 800; SInt 1100].

Definition sample_categories : Column :=
  mkColumn KObject [SStr "Electronics"; SStr "Clothing"; SStr "Home";
                    SStr "Books"; SStr "Sports"].

(** [pd.DataFrame(columns=['Category', 'Sales'])] *)
Definition empty_frame : DataFrame :=
  {| df_index_name := None; df_index := [];
     df_columns := {[ "Category" := mkColumn KObject [];
                      "Sales" := mkColumn KObject [] ]} |}.

(** [pd.concat([df, df]).reset_index(drop=True)] on two rows of the sample *)
Definition doubled_frame : DataFrame :=
  {| df_index_name := None;
     df_index := [SInt 0; SInt 1; SInt 2; SInt 3];
     df_columns :=
       {[ "Category" := mkColumn KObject
            [SStr "Electronics"; SStr "Clothing";
             SStr "Electronics"; SStr "Clothing"];
          "Sales" := mkColumn KInt [SInt 1000; SInt 1500; SInt 1000; SInt 1500] ]} |}.

(** Sales written as text, and a category that repeats. *)
Definition text_frame : DataFrame :=
  {| df_index_name := None;
     df_index := [SInt 0; SInt 1];
     df_columns :=
       {[ "Category" := mkColumn KObject [SStr "Home"; SStr "Home"];
          "Sales" := mkColumn KObject [SStr "1200"; SStr "n/a"] ]} |}.

(** [df.head(1)] of the sample. *)
Definition single_frame : DataFrame :=
  {| df_index_name := None;
     df_index := [SInt 0];
     df_columns :=
       {[ "Category" := mkColumn KObject [SStr "Electronics"];
          "Sales" := mkColumn KInt [SInt 1000] ]} |}.

(** Sales held as booleans. *)
Definition flag_frame : DataFrame :=
  {| df_index_name := None;
     df_index := [SInt 0; SInt 1];
     df_columns :=
       {[ "Category" := mkColumn KObject [SStr "Home"; SStr "Books"];
          "Sales" := mkColumn KBool [SBool true; SBool false] ]} |}.

(** A float sales column with a missing cell. *)
Definition gap_frame : DataFrame :=
  {| df_index_name := None;
     df_index := [SInt 0; SInt 1];
     df_columns :=
       {[ "Category" := mkColumn KObject [SStr "Home"; SStr "Books"];
          "Sales" := mkColumn KFloat [SFloat 2.5; SNaN] ]} |}.

(** The bars on the axes a run returned, if it returned one. *)
Definition bars_drawn (r : outcome pyobj * World) : option (list Rectangle) :=
  match r with
  | (Returns (PyAxes h), w') => ax_patches <$> w_figures w' !! h
  | _ => None
  end.

(** A process that holds the sample frame and its first row, with nothing
    logged and no figure open. *)
Definition test_world : World :=
  {| w_frames := {[ 0%nat := sample_frame; 1%nat := single_frame ]};
     w_log := []; w_figures := []; w_shown := [] |}.

(** ** The runs of [f_2258], statement by statement *)

(** Which statement ends a run, under which condition on the frame, and
    the outcome and world it leaves. *)
Inductive run_case (w : World) (df : nat) (category_col sales_col : string)
  : outcome pyobj * World → Prop :=
  | rc_dangling :
      w_frames w !! df = None →
      run_case w df category_col sales_col (Raises ReferenceError, w)
  | rc_empty (d : DataFrame) :
      w_frames w !! df = Some d →
      frame_empty d = true →
      run_case w df category_col sales_col
        (Raises (ValueError MSG_INVALID), logged MSG_INVALID w)
  | rc_sales_missing (d : DataFrame) :
      w_frames w !! df = Some d →
      frame_empty d = false →
      df_columns d !! sales_col = None →
      run_case w df category_col sales_col (Raises (KeyError sales_col), w)
  | rc_not_numeric (d : DataFrame) (cs : Column) :
      w_frames w !! df = Some d →
      frame_empty d = false →
      df_columns d !! sales_col = Some cs →
      numeric_kind (c_kind cs) = false →
      run_case w df category_col sales_col
        (Raises (ValueError MSG_INVALID), logged MSG_INVALID w)
  | rc_category_missing (d : DataFrame) (cs : Column) :
      w_frames w !! df = Some d →
      frame_empty d = false →
      df_columns d !! sales_col = Some cs →
      numeric_kind (c_kind cs) = true →
      df_columns d !! category_col = None →
      run_case w df category_col sales_col (Raises (KeyError category_col), w)
  | rc_duplicate (d : DataFrame) (cs cc : Column) :
      w_frames w !! df = Some d →
      frame_empty d = false →
      df_columns d !! sales_col = Some cs →
      numeric_kind (c_kind cs) = true →
      df_columns d !! category_col = Some cc →
      has_duplicate (c_values cc) →
      run_case w df category_col sales_col
        (Raises (ValueError MSG_DUPLICATE), logged MSG_DUPLICATE w)
  | rc_same_column (d : DataFrame) (cs cc : Column) :
      w_frames w !! df = Some d →
      frame_empty d = false →
      df_columns d !! sales_col = Some cs →
      numeric_kind (c_kind cs) = true →
      df_columns d !! category_col = Some cc →
      ¬ has_duplicate (c_values cc) →
      category_col = sales_col →
      run_case w df category_col sales_col (Raises (KeyError sales_col), w)
  | rc_not_plottable (d : DataFrame) (cs cc : Column) :
      w_frames w !! df = Some d →
      frame_empty d = false →
      df_columns d !! sales_col = Some cs →
      numeric_kind (c_kind cs) = true →
      df_columns d !! category_col = Some cc →
      ¬ has_duplicate (c_values cc) →
      category_col ≠ sales_col →
      plottable (c_kind cs) = false →
      run_case w df category_col sales_col
        (Raises (TypeError "no numeric data to plot"),
         set_figures (open_figs w) w)
  | rc_success (d : DataFrame) (cs cc : Column) :
      w_frames w !! df = Some d →
      frame_empty d = false →
      df_columns d !! sales_col = Some cs →
      numeric_kind (c_kind cs) = true →
      df_columns d !! category_col = Some cc →
      ¬ has_duplicate (c_values cc) →
      category_col ≠ sales_col →
      plottable (c_kind cs) = true →
      run_case w df category_col sales_col
        (Returns (PyAxes (drawn_handle w)),
         drawn (keyed_series category_col sales_col cc cs) w).

(** ** The frames the tests build *)

#[global] Instance dtype_kind_eq_dec : EqDecision dtype_kind.
Proof. solve_decision. Defined.

(** [d.head(n)] for [n >= 0]: the first [n] rows. *)
Definition DataFrame_head (n : nat) (d : DataFrame) : DataFrame :=
  {| df_index_name := df_index_name d;
     df_index := take n (df_index d);
     df_columns := (λ c, mkColumn (c_kind c) (take n (c_values c)))
                     <$> df_columns d |}.

(** [pd.concat([a, b])] for two frames over the same columns with the
    same dtypes: the rows of [b] under the rows of [a], index labels kept.
    Frames that differ in columns or dtypes are aligned and upcast by
    pandas; the model does not cover them and answers [None]. *)
Definition pd_concat2 (a b : DataFrame) : option DataFrame :=
  if decide (c_kind <$> df_columns a = c_kind <$> df_columns b)
  then Some
    {| df_index_name := if decide (df_index_name a = df_index_name b)
                        then df_index_name a else None;
       df_index := df_index a ++ df_index b;
       df_columns :=
         map_zip_with
           (λ ca cb, mkColumn (c_kind ca) (c_values ca ++ c_values cb))
           (df_columns a) (df_columns b) |}
  else None.

(** [d.reset_index(drop=True)]: the index becomes 0, 1, ..., the old one
    is thrown away. *)
Definition reset_index_drop (d : DataFrame) : DataFrame :=
  {| df_index_name := None;
     df_index := (λ i, SInt (Z.of_nat i)) <$> seq 0 (length (df_index d));
     df_columns := df_columns d |}.

(** [pd.DataFrame(index=[0, 1])]: rows, and no column. *)
Definition bare_frame : DataFrame :=
  {| df_index_name := None; df_index := [SInt 0; SInt 1]; df_columns := ∅ |}.


(** Two rows without a category, one a [None] and one a nan. *)
Definition mixed_frame : DataFrame :=
  {| df_index_name := None;
     df_index := [SInt 0; SInt 1];
     df_columns :=
       {[ "Category" := mkColumn KObject [SNone; SNaN];
          "Sales" := mkColumn KInt [SInt 3; SInt 4] ]} |}.

(** A world whose only open figure is blank. *)
Definition blank_world : World :=
  {| w_frames := {[ 0%nat := sample_frame ]};
     w_log := []; w_figures := [empty_axes]; w_shown := [] |}.

(** A world with one open figure that already shows two bars. *)
Definition busy_world : World :=
  {| w_frames := {[ 0%nat := sample_frame; 1%nat := single_frame ]};
     w_log := [];
     w_figures :=
       [empty_axes;
        {| ax_patches := [mkRectangle 0 (SInt 7); mkRectangle 1 (SInt 9)];
           ax_title := "Stock"; ax_xlabel := ""; ax_ylabel := "Units";
           ax_xticklabels := [] |}];
     w_shown := [] |}.

(** * Properties of the model *)

(** ** The dtype test *)

Lemma kind_check_numeric (k : dtype_kind) :
  str_in (kind_code k) "biufc" = numeric_kind k.
Proof. destruct k; reflexivity. Qed.

(** ** Duplicates *)

Lemma Qeq_bool_sym (p q : Q) : Qeq_bool p q = Qeq_bool q p.
Proof.
  destruct (Qeq_bool p q) eqn:E1, (Qeq_bool q p) eqn:E2; try reflexivity.
  - apply Qeq_bool_iff, Qeq_sym, Qeq_bool_iff in E1. congruence.
  - apply Qeq_bool_iff, Qeq_sym, Qeq_bool_iff in E2. congruence.
Qed.

Lemma key_eqb_sym (a b : scalar) : key_eqb a b = key_eqb b a.
Proof.
  destruct a, b; simpl; try reflexivity; try apply Qeq_bool_sym.
  apply String.eqb_sym.
Qed.

Lemma any_duplicated (s : Series) :
  Series_any (Series_duplicated s) = existsb id (duplicated_flags [] (s_values s)).
Proof.
  unfold Series_any, Series_duplicated; simpl.
  generalize (duplicated_flags [] (s_values s)); intros l.
  induction l as [|b l IH]; [reflexivity|].
  rewrite fmap_cons. simpl. rewrite IH. reflexivity.
Qed.

Lemma duplicated_flags_true (seen vs : list scalar) :
  existsb id (duplicated_flags seen vs) = true ↔
  (∃ j b a, vs !! j = Some b ∧ a ∈ seen ∧ key_eqb b a = true) ∨ has_duplicate vs.
Proof.
  revert seen. induction vs as [|v vs IH]; intros seen; simpl.
  - split; [discriminate|].
    intros [(j & b & a & Hj & _)|(i & j & a & b & _ & Hi & _)]; discriminate.
  - rewrite orb_true_iff, IH, existsb_exists. split.
    + intros [(a & Hin & Ha)|[(j & b & a & Hj & Hin & Hab)|(i & j & a & b & Hne & Hi & Hj & Hab)]].
      * left. exists 0%nat, v, a. rewrite list_elem_of_In. auto.
      * apply elem_of_cons in Hin as [->|Hin].
        -- right. exists (S j), 0%nat, b, v. repeat split; auto.
        -- left. exists (S j), b, a. auto.
      * right. exists (S i), (S j), a, b. repeat split; auto.
    + intros [(j & b & a & Hj & Hin & Hab)|(i & j & a & b & Hne & Hi & Hj & Hab)].
      * destruct j as [|j]; simpl in Hj.
        -- left. injection Hj as ->. exists a. rewrite <- list_elem_of_In. auto.
        -- right. left. exists j, b, a. rewrite elem_of_cons. auto.
      * destruct i as [|i], j as [|j]; simpl in Hi, Hj; try congruence.
        -- right. left. injection Hi as ->. exists j, b, a.
           rewrite elem_of_cons, key_eqb_sym. auto.
        -- right. left. injection Hj as ->. exists i, a, b.
           rewrite elem_of_cons. auto.
        -- right. right. exists i, j, a, b. repeat split; auto.
Qed.

Lemma duplicated_any_iff (vs : list scalar) :
  existsb id (duplicated_flags [] vs) = true ↔ has_duplicate vs.
Proof.
  rewrite duplicated_flags_true. split; [|auto].
  intros [(j & b & a & _ & Hin & _)|H]; [|exact H].
  apply elem_of_nil in Hin. destruct Hin.
Qed.

Lemma duplicated_any_false (vs : list scalar) :
  ¬ has_duplicate vs → existsb id (duplicated_flags [] vs) = false.
Proof.
  intros H. destruct (existsb id (duplicated_flags [] vs)) eqn:E; [|reflexivity].
  apply duplicated_any_iff in E. contradiction.
Qed.

(** ** Emptiness *)

Lemma frame_empty_no_rows (d : DataFrame) :
  df_index d = [] → frame_empty d = true.
Proof. unfold frame_empty. intros ->. reflexivity. Qed.

Lemma frame_empty_false (d : DataFrame) (key : string) (c : Column) :
  df_index d ≠ [] → df_columns d !! key = Some c → frame_empty d = false.
Proof.
  unfold frame_empty. intros Hrows Hcol.
  apply orb_false_iff. split; apply Nat.eqb_neq.
  - destruct (df_index d); [congruence|discriminate].
  - intros Hsize. apply map_size_empty_iff in Hsize.
    rewrite Hsize, lookup_empty in Hcol. discriminate.
Qed.

(** ** The paths through [f_2258] *)

#[local] Arguments str_in : simpl never.
#[local] Arguments kind_code : simpl never.
#[local] Arguments plottable : simpl never.
#[local] Arguments numeric_kind : simpl never.
#[local] Arguments duplicated_flags : simpl never.
#[local] Arguments Series_any : simpl never.

Ltac run_head :=
  unfold f_2258, DataFrame_empty, DataFrame_getitem, DataFrame_set_index,
    subscript, logging_error, deref, lift, raise, frame_getitem;
  unfold mbind, M_bind, mret, M_ret; simpl.

Ltac run_f :=
  run_head;
  unfold Series_plot_bar, plt_ylabel, plt_show, plt_gca, update_axes;
  unfold mbind, M_bind, mret, M_ret; simpl.

(** *** The drawing statements *)

Lemma plt_gca_run (w : World) :
  plt_gca w = (Returns (drawn_handle w), set_figures (open_figs w) w).
Proof.
  unfold plt_gca, drawn_handle, open_figs.
  destruct w as [fr lg [|a l] sh]; reflexivity.
Qed.

Lemma open_figs_alter (f : Axes → Axes) (h : nat) (w : World) :
  open_figs (set_figures (alter f h (open_figs w)) w) = alter f h (open_figs w).
Proof.
  unfold open_figs at 1. simpl.
  destruct (alter f h (open_figs w)) as [|a l] eqn:E; [|reflexivity].
  apply (f_equal length) in E. rewrite length_alter in E.
  unfold open_figs in E. destruct (w_figures w); discriminate.
Qed.

Lemma drawn_handle_alter (f : Axes → Axes) (h : nat) (w : World) :
  drawn_handle (set_figures (alter f h (open_figs w)) w) = drawn_handle w.
Proof.
  unfold drawn_handle at 1. rewrite open_figs_alter, length_alter. reflexivity.
Qed.

Lemma Series_plot_bar_run (s : Series) (title : string) (w : World) :
  plottable (s_kind s) = true →
  Series_plot_bar s title w
  = (Returns (drawn_handle w),
     set_figures (alter (draw_bars s title) (drawn_handle w) (open_figs w)) w).
Proof.
  intros H. unfold Series_plot_bar.
  unfold mbind, M_bind, mret, M_ret. rewrite plt_gca_run, H.
  unfold update_axes. reflexivity.
Qed.

Lemma Series_plot_bar_refuse (s : Series) (title : string) (w : World) :
  plottable (s_kind s) = false →
  Series_plot_bar s title w
  = (Raises (TypeError "no numeric data to plot"), set_figures (open_figs w) w).
Proof.
  intros H. unfold Series_plot_bar.
  unfold mbind, M_bind, mret, M_ret. rewrite plt_gca_run, H. reflexivity.
Qed.

Lemma plt_ylabel_run (label : string) (w : World) :
  plt_ylabel label w
  = (Returns tt,
     set_figures (alter (set_ylabel label) (drawn_handle w) (open_figs w)) w).
Proof.
  unfold plt_ylabel, mbind, M_bind. rewrite plt_gca_run.
  unfold update_axes. reflexivity.
Qed.

#[local] Arguments Series_plot_bar : simpl never.
#[local] Arguments plt_ylabel : simpl never.
#[local] Arguments plt_show : simpl never.

Section Paths.
Variables (w : World) (df : nat) (category_col sales_col : string).

Lemma f_2258_dangling :
  w_frames w !! df = None →
  f_2258 df category_col sales_col w = (Raises ReferenceError, w).
Proof. intros H. run_f. rewrite H. reflexivity. Qed.

Variable d : DataFrame.
Hypothesis Hdf : w_frames w !! df = Some d.

Lemma f_2258_empty :
  frame_empty d = true →
  f_2258 df category_col sales_col w
  = (Raises (ValueError MSG_INVALID), logged MSG_INVALID w).
Proof. intros H. run_f. rewrite Hdf, H. reflexivity. Qed.

Hypothesis Hrows : frame_empty d = false.

Lemma f_2258_sales_missing :
  df_columns d !! sales_col = None →
  f_2258 df category_col sales_col w = (Raises (KeyError sales_col), w).
Proof. intros H. run_f. rewrite Hdf, Hrows. simpl. rewrite Hdf, H. reflexivity. Qed.

Variable cs : Column.
Hypothesis Hsales : df_columns d !! sales_col = Some cs.

Lemma f_2258_not_numeric :
  numeric_kind (c_kind cs) = false →
  f_2258 df category_col sales_col w
  = (Raises (ValueError MSG_INVALID), logged MSG_INVALID w).
Proof.
  intros H. run_f. rewrite Hdf, Hrows. simpl. rewrite Hdf, Hsales. simpl.
  rewrite kind_check_numeric, H. reflexivity.
Qed.

Hypothesis Hnum : numeric_kind (c_kind cs) = true.

Lemma f_2258_category_missing :
  df_columns d !! category_col = None →
  f_2258 df category_col sales_col w = (Raises (KeyError category_col), w).
Proof.
  intros H. run_f. rewrite Hdf, Hrows. simpl. rewrite Hdf, Hsales. simpl.
  rewrite kind_check_numeric, Hnum. simpl. rewrite Hdf, H. reflexivity.
Qed.

Variable cc : Column.
Hypothesis Hcat : df_columns d !! category_col = Some cc.

Lemma f_2258_duplicate :
  existsb id (duplicated_flags [] (c_values cc)) = true →
  f_2258 df category_col sales_col w
  = (Raises (ValueError MSG_DUPLICATE), logged MSG_DUPLICATE w).
Proof.
  intros H. run_f. rewrite Hdf, Hrows. simpl. rewrite Hdf, Hsales. simpl.
  rewrite kind_check_numeric, Hnum. simpl. rewrite Hdf, Hcat. simpl.
  rewrite any_duplicated. simpl. rewrite H. reflexivity.
Qed.

Hypothesis Hunique : existsb id (duplicated_flags [] (c_values cc)) = false.

Lemma f_2258_same_column :
  category_col = sales_col →
  f_2258 df category_col sales_col w = (Raises (KeyError sales_col), w).
Proof.
  intros Heq. run_f. rewrite Hdf, Hrows. simpl. rewrite Hdf, Hsales. simpl.
  rewrite kind_check_numeric, Hnum. simpl. rewrite Hdf, Hcat. simpl.
  rewrite any_duplicated. simpl. rewrite Hunique. simpl.
  rewrite Hdf, Hcat. simpl. rewrite Heq, lookup_delete_eq. reflexivity.
Qed.

Hypothesis Hne : category_col ≠ sales_col.

Lemma f_2258_not_plottable :
  plottable (c_kind cs) = false →
  f_2258 df category_col sales_col w
  = (Raises (TypeError "no numeric data to plot"), set_figures (open_figs w) w).
Proof.
  intros H. run_head. rewrite Hdf, Hrows. simpl. rewrite Hdf, Hsales. simpl.
  rewrite kind_check_numeric, Hnum. simpl. rewrite Hdf, Hcat. simpl.
  rewrite any_duplicated. simpl. rewrite Hunique. simpl.
  rewrite Hdf, Hcat. simpl. rewrite lookup_delete_ne, Hsales by exact Hne.
  simpl. fold (keyed_series category_col sales_col cc cs).
  rewrite Series_plot_bar_refuse by exact H. reflexivity.
Qed.

Lemma f_2258_success :
  plottable (c_kind cs) = true →
  f_2258 df category_col sales_col w
  = (Returns (PyAxes (drawn_handle w)),
     drawn (keyed_series category_col sales_col cc cs) w).
Proof.
  intros H. run_head. rewrite Hdf, Hrows. simpl. rewrite Hdf, Hsales. simpl.
  rewrite kind_check_numeric, Hnum. simpl. rewrite Hdf, Hcat. simpl.
  rewrite any_duplicated. simpl. rewrite Hunique. simpl.
  rewrite Hdf, Hcat. simpl. rewrite lookup_delete_ne, Hsales by exact Hne.
  simpl. fold (keyed_series category_col sales_col cc cs).
  rewrite Series_plot_bar_run by exact H.
  rewrite plt_ylabel_run. unfold plt_show. simpl.
  rewrite open_figs_alter, drawn_handle_alter. reflexivity.
Qed.
End Paths.

Lemma no_duplicate_check (vs : list scalar) :
  existsb id (duplicated_flags [] vs) = false → ¬ has_duplicate vs.
Proof. intros H Hdup. apply duplicated_any_iff in Hdup. congruence. Qed.

Lemma f_2258_path (w : World) (df : nat) (category_col sales_col : string) :
  path w df category_col sales_col (f_2258 df category_col sales_col w).
Proof.
  destruct (w_frames w !! df) as [d|] eqn:Hdf.
  2: { rewrite f_2258_dangling by exact Hdf. constructor. exact Hdf. }
  destruct (frame_empty d) eqn:Hrows.
  { erewrite f_2258_empty by eassumption. constructor. }
  destruct (df_columns d !! sales_col) as [cs|] eqn:Hsales.
  2: { erewrite f_2258_sales_missing by eassumption. constructor. }
  destruct (numeric_kind (c_kind cs)) eqn:Hnum.
  2: { erewrite f_2258_not_numeric by eassumption. constructor. }
  destruct (df_columns d !! category_col) as [cc|] eqn:Hcat.
  2: { erewrite f_2258_category_missing by eassumption. constructor. }
  destruct (existsb id (duplicated_flags [] (c_values cc))) eqn:Hdup.
  { erewrite f_2258_duplicate by eassumption. constructor. }
  destruct (decide (category_col = sales_col)) as [Heq|Hne].
  { erewrite f_2258_same_column by eassumption. constructor. }
  destruct (plottable (c_kind cs)) eqn:Hplot.
  2: { erewrite f_2258_not_plottable by eassumption. constructor. }
  erewrite f_2258_success by eassumption.
  econstructor; eauto using no_duplicate_check.
Qed.

(** *** The chart the success path leaves behind *)

Lemma open_figs_current (w : World) :
  open_figs w !! drawn_handle w = Some (current_axes w).
Proof.
  unfold drawn_handle, open_figs, current_axes.
  destruct (w_figures w) as [|a l] eqn:E; [reflexivity|].
  rewrite last_lookup. rewrite Nat.sub_1_r.
  destruct ((a :: l) !! Nat.pred (length (a :: l))) eqn:E2; [reflexivity|].
  apply lookup_ge_None in E2. simpl in E2. lia.
Qed.

Lemma drawn_axes (s : Series) (w : World) :
  w_figures (drawn s w) !! drawn_handle w
  = Some (set_ylabel "Sales"
            (draw_bars s "Sales Report by Category" (current_axes w))).
Proof.
  unfold drawn. simpl.
  rewrite !list_lookup_alter_eq, open_figs_current. reflexivity.
Qed.


Lemma current_axes_patches (w : World) :
  ax_patches (current_axes w) = current_patches w.
Proof.
  unfold current_axes, current_patches. destruct (last (w_figures w)); reflexivity.
Qed.

Lemma bars_of_length (vs : list scalar) : length (bars_of vs) = length vs.
Proof. unfold bars_of. apply length_imap. Qed.

Lemma bars_of_lookup (vs : list scalar) (i : nat) (v : scalar) :
  vs !! i = Some v → bars_of vs !! i = Some (mkRectangle i (fillna0 v)).
Proof. intros H. unfold bars_of. rewrite list_lookup_imap, H. reflexivity. Qed.

Lemma sample_frame_wf : df_wf sample_frame.
Proof.
  intros name c H. unfold sample_frame in H. simpl in H.
  apply lookup_insert_Some in H as [[_ <-]|[_ H]]; [reflexivity|].
  apply lookup_singleton_Some in H as [_ <-]. reflexivity.
Qed.

Lemma single_frame_wf : df_wf single_frame.
Proof.
  intros name c H. unfold single_frame in H. simpl in H.
  apply lookup_insert_Some in H as [[_ <-]|[_ H]]; [reflexivity|].
  apply lookup_singleton_Some in H as [_ <-]. reflexivity.
Qed.

Lemma numeric_not_bool_plottable (k : dtype_kind) :
  numeric_kind k = true → k ≠ KBool → plottable k = true.
Proof. destruct k; intros H1 H2; try reflexivity; try discriminate; congruence. Qed.

Lemma fillna0_shows (i : nat) (v : scalar) :
  bar_shows i v (mkRectangle i (fillna0 v)).
Proof. split; [reflexivity|]. destruct v; reflexivity. Qed.

Lemma bars_added_app (before : list Rectangle) (vs : list scalar) (ax : Axes) :
  ax_patches ax = before ++ bars_of vs →
  bars_added (length before) vs ax.
Proof.
  intros H. unfold bars_added. rewrite H. split.
  - rewrite length_app, bars_of_length. reflexivity.
  - intros i v Hv. exists (mkRectangle i (fillna0 v)). split.
    + rewrite lookup_app_r by lia.
      replace (length before + i - length before)%nat with i by lia.
      apply bars_of_lookup, Hv.
    + apply fillna0_shows.
Qed.

Lemma drawn_complete (category_col sales_col : string) (cc cs : Column) (w : World) :
  ∃ ax, w_figures (drawn (keyed_series category_col sales_col cc cs) w)
          !! drawn_handle w = Some ax ∧
        complete_chart (current_patches w) cc cs ax.
Proof.
  eexists. split; [apply drawn_axes|].
  unfold complete_chart. simpl. rewrite current_axes_patches. auto.
Qed.

Lemma current_patches_closed (w : World) :
  w_figures w = [] → current_patches w = [].
Proof. unfold current_patches. intros ->. reflexivity. Qed.

(** * The claims *)

(** C1.  The code does not keep this claim.  [flag_frame] has rows, a
    category column without duplicates, and a sales column of boolean
    dtype, which the dtype test of line 33 lets through as numeric (kind
    'b' is in 'biufc'); no figure is open.  The call returns no chart: the
    plot of line 41 refuses boolean data and raises [TypeError]. *)
Theorem C1_boolean_sales_raises :
  (w_frames (world_of flag_frame) !! 0%nat = Some flag_frame ∧
   df_index flag_frame ≠ [] ∧
   df_columns flag_frame !! "Sales"
   = Some (mkColumn KBool [SBool true; SBool false]) ∧
   str_in (kind_code KBool) "biufc" = true ∧
   numeric_kind KBool = true ∧
   df_columns flag_frame !! "Category"
   = Some (mkColumn KObject [SStr "Home"; SStr "Books"]) ∧
   ¬ has_duplicate [SStr "Home"; SStr "Books"] ∧
   w_figures (world_of flag_frame) = []) ∧
  fst (f_2258 0 "Category" "Sales" (world_of flag_frame))
  = Raises (TypeError "no numeric data to plot") ∧
  ¬ renders id (world_of flag_frame) 0 "Category" "Sales" flag_frame
      (mkColumn KBool [SBool true; SBool false]).
Proof.
  split; [|split].
  - repeat split; try reflexivity; try discriminate.
    apply no_duplicate_check. reflexivity.
  - reflexivity.
  - intros (h & w' & ax & Hrun & _). vm_compute in Hrun. discriminate.
Qed.

(** C2.  A dataset with zero rows, and a dataset with rows whose sales
    column is not of a numeric kind (integer, unsigned integer, float,
    complex or boolean), make [f_2258] raise [ValueError] with the message
    "DataFrame is empty, lacks sales data, or sales data is not numeric.". *)
Theorem C2_empty_or_not_numeric
    (w : World) (df : nat) (category_col sales_col : string) (d : DataFrame) :
  w_frames w !! df = Some d →
  (df_index d = [] ∨
   (df_index d ≠ [] ∧
    ∃ cs, df_columns d !! sales_col = Some cs ∧
          numeric_kind (c_kind cs) = false)) →
  fst (f_2258 df category_col sales_col w)
  = Raises (ValueError
      "DataFrame is empty, lacks sales data, or sales data is not numeric.").
Proof.
  intros Hdf [Hzero|(Hrows & cs & Hsales & Hkind)].
  - rewrite (f_2258_empty w df category_col sales_col d Hdf
               (frame_empty_no_rows d Hzero)).
    reflexivity.
  - rewrite (f_2258_not_numeric w df category_col sales_col d Hdf
               (frame_empty_false d sales_col cs Hrows Hsales) cs Hsales Hkind).
    reflexivity.
Qed.

Lemma C2_empty_or_not_numeric_witness :
  fst (f_2258 0 "Category" "Sales" (world_of empty_frame))
  = Raises (ValueError
      "DataFrame is empty, lacks sales data, or sales data is not numeric.") ∧
  fst (f_2258 0 "Category" "Sales" (world_of text_frame))
  = Raises (ValueError
      "DataFrame is empty, lacks sales data, or sales data is not numeric.").
Proof.
  split.
  - apply (C2_empty_or_not_numeric (world_of empty_frame) 0 "Category" "Sales"
             empty_frame); [reflexivity|left; reflexivity].
  - apply (C2_empty_or_not_numeric (world_of text_frame) 0 "Category" "Sales"
             text_frame); [reflexivity|right].
    split; [discriminate|].
    exists (mkColumn KObject [SStr "1200"; SStr "n/a"]).
    split; reflexivity.
Defined.

(** C3.  On a dataset with rows and a numeric sales column, a category
    column in which some value sits in two rows makes [f_2258] raise
    [ValueError] with the message "DataFrame contains duplicate entries in
    the category column.". *)
Theorem C3_duplicate_category
    (w : World) (df : nat) (category_col sales_col : string)
    (d : DataFrame) (cs cc : Column) :
  w_frames w !! df = Some d →
  df_index d ≠ [] →
  df_columns d !! sales_col = Some cs →
  numeric_kind (c_kind cs) = true →
  df_columns d !! category_col = Some cc →
  has_duplicate (c_values cc) →
  fst (f_2258 df category_col sales_col w)
  = Raises (ValueError
      "DataFrame contains duplicate entries in the category column.").
Proof.
  intros Hdf Hrows Hsales Hnum Hcat Hdup.
  apply duplicated_any_iff in Hdup.
  rewrite (f_2258_duplicate w df category_col sales_col d Hdf
             (frame_empty_false d sales_col cs Hrows Hsales)
             cs Hsales Hnum cc Hcat Hdup).
  reflexivity.
Qed.

Lemma C3_duplicate_category_witness :
  fst (f_2258 0 "Category" "Sales" (world_of doubled_frame))
  = Raises (ValueError
      "DataFrame contains duplicate entries in the category column.").
Proof.
  apply (C3_duplicate_category (world_of doubled_frame) 0 "Category" "Sales"
           doubled_frame
           (mkColumn KInt [SInt 1000; SInt 1500; SInt 1000; SInt 1500])
           (mkColumn KObject [SStr "Electronics"; SStr "Clothing";
                              SStr "Electronics"; SStr "Clothing"]));
    try reflexivity; try discriminate.
  exists 0%nat, 2%nat, (SStr "Electronics"), (SStr "Electronics").
  split; [discriminate|]. repeat split; reflexivity.
Defined.

(** C4.  The emptiness/dtype check runs before the duplicate check: on a
    dataset with rows whose sales column is not numeric and whose category
    column holds a duplicate, [f_2258] logs and raises the error of the
    first check, not the duplicate-category error. *)
Theorem C4_first_check_wins
    (w : World) (df : nat) (category_col sales_col : string)
    (d : DataFrame) (cs cc : Column) :
  w_frames w !! df = Some d →
  df_index d ≠ [] →
  df_columns d !! sales_col = Some cs →
  numeric_kind (c_kind cs) = false →
  df_columns d !! category_col = Some cc →
  has_duplicate (c_values cc) →
  f_2258 df category_col sales_col w
  = (Raises (ValueError
       "DataFrame is empty, lacks sales data, or sales data is not numeric."),
     logged
       "DataFrame is empty, lacks sales data, or sales data is not numeric." w)
  ∧ fst (f_2258 df category_col sales_col w)
    ≠ Raises (ValueError
        "DataFrame contains duplicate entries in the category column.").
Proof.
  intros Hdf Hrows Hsales Hkind _ _.
  rewrite (f_2258_not_numeric w df category_col sales_col d Hdf
             (frame_empty_false d sales_col cs Hrows Hsales) cs Hsales Hkind).
  split; [reflexivity|discriminate].
Qed.

Lemma C4_first_check_wins_witness :
  f_2258 0 "Category" "Sales" (world_of text_frame)
  = (Raises (ValueError
       "DataFrame is empty, lacks sales data, or sales data is not numeric."),
     logged
       "DataFrame is empty, lacks sales data, or sales data is not numeric."
       (world_of text_frame))
  ∧ fst (f_2258 0 "Category" "Sales" (world_of text_frame))
    ≠ Raises (ValueError
        "DataFrame contains duplicate entries in the category column.").
Proof.
  apply (C4_first_check_wins (world_of text_frame) 0 "Category" "Sales"
           text_frame
           (mkColumn KObject [SStr "1200"; SStr "n/a"])
           (mkColumn KObject [SStr "Home"; SStr "Home"]));
    try reflexivity; try discriminate.
  exists 0%nat, 1%nat, (SStr "Home"), (SStr "Home").
  split; [discriminate|]. repeat split; reflexivity.
Defined.

(** C5.  On a dataset with rows and a numeric sales column, a category
    name that is not a column makes [f_2258] raise [KeyError] for that
    name, not [ValueError]. *)
Theorem C5_missing_category_column
    (w : World) (df : nat) (category_col sales_col : string)
    (d : DataFrame) (cs : Column) :
  w_frames w !! df = Some d →
  df_index d ≠ [] →
  df_columns d !! sales_col = Some cs →
  numeric_kind (c_kind cs) = true →
  df_columns d !! category_col = None →
  fst (f_2258 df category_col sales_col w) = Raises (KeyError category_col).
Proof.
  intros Hdf Hrows Hsales Hnum Hcat.
  rewrite (f_2258_category_missing w df category_col sales_col d Hdf
             (frame_empty_false d sales_col cs Hrows Hsales)
             cs Hsales Hnum Hcat).
  reflexivity.
Qed.

Lemma C5_missing_category_column_witness :
  fst (f_2258 0 "NonexistentCategory" "Sales" (world_of sample_frame))
  = Raises (KeyError "NonexistentCategory").
Proof.
  apply (C5_missing_category_column (world_of sample_frame) 0
           "NonexistentCategory" "Sales" sample_frame sample_sales);
    try reflexivity; discriminate.
Defined.

(** C6.  When [f_2258] raises [ValueError], the run has added exactly one
    record to the log, at ERROR and with the message of the exception, and
    has done nothing else; when it raises [KeyError], the log is as it was. *)
Theorem C6_log_before_raise
    (w : World) (df : nat) (category_col sales_col : string)
    (out : outcome pyobj) (w' : World) :
  f_2258 df category_col sales_col w = (out, w') →
  (∀ msg, out = Raises (ValueError msg) →
          w_log w' = w_log w ++ [mkLogRecord ERROR msg] ∧
          w_figures w' = w_figures w ∧ w_shown w' = w_shown w) ∧
  (∀ key, out = Raises (KeyError key) → w_log w' = w_log w).
Proof.
  intros Hrun.
  pose proof (f_2258_path w df category_col sales_col) as P.
  rewrite Hrun in P.
  inversion P; subst; split; intros x Hx;
    try discriminate Hx; try (injection Hx as <-); auto.
Qed.

Lemma C6_log_before_raise_witness :
  (∀ msg,
      Raises (ValueError
        "DataFrame contains duplicate entries in the category column.")
      = Raises (A := pyobj) (ValueError msg) →
      w_log (logged
               "DataFrame contains duplicate entries in the category column."
               (world_of doubled_frame))
      = w_log (world_of doubled_frame) ++ [mkLogRecord ERROR msg] ∧
      w_figures (logged
               "DataFrame contains duplicate entries in the category column."
               (world_of doubled_frame))
      = w_figures (world_of doubled_frame) ∧
      w_shown (logged
               "DataFrame contains duplicate entries in the category column."
               (world_of doubled_frame))
      = w_shown (world_of doubled_frame)) ∧
  (∀ key,
      Raises (ValueError
        "DataFrame contains duplicate entries in the category column.")
      = Raises (A := pyobj) (KeyError key) →
      w_log (logged
               "DataFrame contains duplicate entries in the category column."
               (world_of doubled_frame))
      = w_log (world_of doubled_frame)).
Proof.
  apply (C6_log_before_raise (world_of doubled_frame) 0 "Category" "Sales").
  reflexivity.
Defined.


(** C8.  [f_2258] leaves every frame of the store as it was, whether it
    returns or raises: the caller's dataset has the rows, columns and
    cells it had before the call. *)
Theorem C8_dataset_unchanged
    (w : World) (df : nat) (category_col sales_col : string) :
  w_frames (snd (f_2258 df category_col sales_col w)) = w_frames w.
Proof.
  pose proof (f_2258_path w df category_col sales_col) as P.
  destruct (f_2258 df category_col sales_col w) as [out w'].
  inversion P; subst; reflexivity.
Qed.

(** C9.  On a dataset with zero rows [f_2258] raises the [ValueError] of
    the first check whatever the two column names are, columns of the
    frame or not: the lookup that could raise [KeyError] is never run. *)
Theorem C9_empty_short_circuits
    (w : World) (df : nat) (category_col sales_col : string) (d : DataFrame) :
  w_frames w !! df = Some d →
  df_index d = [] →
  fst (f_2258 df category_col sales_col w)
  = Raises (ValueError
      "DataFrame is empty, lacks sales data, or sales data is not numeric.")
  ∧ ∀ key, fst (f_2258 df category_col sales_col w) ≠ Raises (KeyError key).
Proof.
  intros Hdf Hzero.
  rewrite (f_2258_empty w df category_col sales_col d Hdf
             (frame_empty_no_rows d Hzero)).
  split; [reflexivity|discriminate].
Qed.

Lemma C9_empty_short_circuits_witness :
  df_columns empty_frame !! "Revenue" = None ∧
  df_columns empty_frame !! "Kind" = None ∧
  fst (f_2258 0 "Kind" "Revenue" (world_of empty_frame))
  = Raises (ValueError
      "DataFrame is empty, lacks sales data, or sales data is not numeric.")
  ∧ ∀ key, fst (f_2258 0 "Kind" "Revenue" (world_of empty_frame))
           ≠ Raises (KeyError key).
Proof.
  split; [reflexivity|]. split; [reflexivity|].
  apply (C9_empty_short_circuits (world_of empty_frame) 0 "Kind" "Revenue"
           empty_frame); reflexivity.
Defined.

(** C10.  What [f_2258] returns, when it returns, is a reference to an
    axes object and never [None]. *)
Theorem C10_returns_a_handle
    (w : World) (df : nat) (category_col sales_col : string) (v : pyobj) :
  fst (f_2258 df category_col sales_col w) = Returns v →
  v ≠ PyNone ∧ ∃ h, v = PyAxes h.
Proof.
  intros Hrun.
  pose proof (f_2258_path w df category_col sales_col) as P.
  destruct (f_2258 df category_col sales_col w) as [out w'].
  simpl in Hrun. subst out.
  inversion P; subst. split; [discriminate|eauto].
Qed.

Lemma C10_returns_a_handle_witness :
  PyAxes 0 ≠ PyNone ∧ ∃ h, PyAxes 0 = PyAxes h.
Proof.
  apply (C10_returns_a_handle (world_of sample_frame) 0 "Category" "Sales").
  reflexivity.
Defined.

(** * The module's tests, and runs next to the claims *)

Example test_sales_data_input :
  length <$> bars_drawn (f_2258 0 "Category" "Sales" (world_of sample_frame))
  = Some 5%nat.
Proof. reflexivity. Qed.

Example test_single_category_input :
  length <$> bars_drawn (f_2258 0 "Category" "Sales" (world_of single_frame))
  = Some 1%nat.
Proof. reflexivity. Qed.

Example test_no_data :
  fst (f_2258 0 "Category" "Sales" (world_of empty_frame))
  = Raises (ValueError MSG_INVALID).
Proof. reflexivity. Qed.

Example test_invalid_columns :
  fst (f_2258 0 "NonexistentCategory" "Sales" (world_of sample_frame))
  = Raises (KeyError "NonexistentCategory").
Proof. reflexivity. Qed.

Example test_duplicate_category_input :
  fst (f_2258 0 "Category" "Sales" (world_of doubled_frame))
  = Raises (ValueError MSG_DUPLICATE).
Proof. reflexivity. Qed.

(** A series plots on the current axes.  A second call in the world the
    first one left behind gets the same handle, and the axes then holds
    the bars of both calls. *)
Example second_call_same_axes :
  fst (f_2258 0 "Category" "Sales" test_world) = Returns (PyAxes 0) ∧
  fst (f_2258 1 "Category" "Sales"
         (snd (f_2258 0 "Category" "Sales" test_world))) = Returns (PyAxes 0) ∧
  length <$> bars_drawn (f_2258 1 "Category" "Sales"
                           (snd (f_2258 0 "Category" "Sales" test_world)))
  = Some 6%nat.
Proof. repeat split; reflexivity. Qed.

(** A boolean sales column passes the dtype check and is then refused by
    the plot; no figure was open, and a blank one is left behind. *)
Example boolean_sales_not_plotted :
  f_2258 0 "Category" "Sales" (world_of flag_frame)
  = (Raises (TypeError "no numeric data to plot"),
     set_figures [empty_axes] (world_of flag_frame)).
Proof. reflexivity. Qed.

(** A missing sales cell is drawn as a bar of height 0. *)
Example missing_cell_drawn_as_zero :
  bars_drawn (f_2258 0 "Category" "Sales" (world_of gap_frame))
  = Some [mkRectangle 0 (SFloat 2.5); mkRectangle 1 (SFloat 0)].
Proof. reflexivity. Qed.

(** * Further properties of [f_2258] *)

Lemma f_2258_run_case (w : World) (df : nat) (category_col sales_col : string) :
  run_case w df category_col sales_col (f_2258 df category_col sales_col w).
Proof.
  destruct (w_frames w !! df) as [d|] eqn:Hdf.
  2: { rewrite f_2258_dangling by exact Hdf. constructor. exact Hdf. }
  destruct (frame_empty d) eqn:Hrows.
  { erewrite f_2258_empty by eassumption. econstructor; eassumption. }
  destruct (df_columns d !! sales_col) as [cs|] eqn:Hsales.
  2: { erewrite f_2258_sales_missing by eassumption.
       eapply rc_sales_missing; eassumption. }
  destruct (numeric_kind (c_kind cs)) eqn:Hnum.
  2: { erewrite f_2258_not_numeric by eassumption.
       eapply rc_not_numeric; eassumption. }
  destruct (df_columns d !! category_col) as [cc|] eqn:Hcat.
  2: { erewrite f_2258_category_missing by eassumption.
       eapply rc_category_missing; eassumption. }
  destruct (existsb id (duplicated_flags [] (c_values cc))) eqn:Hdup.
  { erewrite f_2258_duplicate by eassumption.
    eapply rc_duplicate; try eassumption. apply duplicated_any_iff, Hdup. }
  pose proof (no_duplicate_check _ Hdup) as Hnodup.
  destruct (decide (category_col = sales_col)) as [Heq|Hne].
  { erewrite f_2258_same_column by eassumption.
    eapply rc_same_column; eassumption. }
  destruct (plottable (c_kind cs)) eqn:Hplot.
  2: { erewrite f_2258_not_plottable by eassumption.
       eapply rc_not_plottable; eassumption. }
  erewrite f_2258_success by eassumption.
  eapply rc_success; eassumption.
Qed.

Lemma frame_empty_rows_columns (d : DataFrame) :
  frame_empty d = false ↔ df_index d ≠ [] ∧ df_columns d ≠ ∅.
Proof.
  unfold frame_empty. rewrite orb_false_iff, !Nat.eqb_neq. split.
  - intros [Hr Hc]. split.
    + intros E. rewrite E in Hr. apply Hr. reflexivity.
    + intros E. rewrite E, map_size_empty in Hc. apply Hc. reflexivity.
  - intros [Hr Hc]. split.
    + destruct (df_index d); [congruence|discriminate].
    + intros E. apply map_size_empty_iff in E. contradiction.
Qed.

Lemma plottable_iff (k : dtype_kind) :
  numeric_kind k = true →
  (plottable k = true ↔ k ≠ KBool).
Proof.
  destruct k; intros H; try discriminate H; split; intros H';
    try reflexivity; try discriminate; try (exfalso; discriminate H');
    exfalso; apply H'; reflexivity.
Qed.

Lemma key_eqb_refl (a : scalar) : key_eqb a a = true.
Proof.
  destruct a; simpl; try reflexivity;
    try (apply Qeq_bool_iff; reflexivity).
  apply String.eqb_refl.
Qed.

(** X1.  [f_2258] returns exactly when the dataset has rows, the sales
    column exists with an integer, unsigned, float or complex dtype, the
    category column exists, is another column, and has no duplicate; on
    every other input it raises. *)
Theorem returns_iff_valid
    (w : World) (df : nat) (category_col sales_col : string) :
  (∃ v, fst (f_2258 df category_col sales_col w) = Returns v) ↔
  (∃ d cs cc,
      w_frames w !! df = Some d ∧
      df_index d ≠ [] ∧
      df_columns d !! sales_col = Some cs ∧
      numeric_kind (c_kind cs) = true ∧
      c_kind cs ≠ KBool ∧
      df_columns d !! category_col = Some cc ∧
      ¬ has_duplicate (c_values cc) ∧
      category_col ≠ sales_col).
Proof.
  split.
  - intros [v Hv].
    pose proof (f_2258_run_case w df category_col sales_col) as R.
    destruct (f_2258 df category_col sales_col w) as [out w'].
    simpl in Hv. subst out. inversion R; subst.
    exists d, cs, cc. repeat (split; [assumption|]).
    match goal with H : frame_empty d = false |- _ =>
      apply frame_empty_rows_columns in H as [Hr _] end.
    split; [exact Hr|]. repeat (split; [assumption|]).
    split; [apply plottable_iff; assumption|]. auto.
  - intros (d & cs & cc & Hdf & Hrows & Hsales & Hnum & Hbool & Hcat & Hdup & Hne).
    eexists.
    rewrite (f_2258_success w df category_col sales_col d Hdf
               (frame_empty_false d sales_col cs Hrows Hsales) cs Hsales Hnum
               cc Hcat (duplicated_any_false _ Hdup) Hne
               (numeric_not_bool_plottable _ Hnum Hbool)).
    reflexivity.
Qed.

(** X2.  On a dataset with rows and columns, a sales name that is not a
    column raises [KeyError] for that name at the first check, whatever the
    category argument is, and the world is left as it was. *)
Theorem missing_sales_column
    (w : World) (df : nat) (category_col sales_col : string) (d : DataFrame) :
  w_frames w !! df = Some d →
  df_index d ≠ [] →
  df_columns d ≠ ∅ →
  df_columns d !! sales_col = None →
  f_2258 df category_col sales_col w = (Raises (KeyError sales_col), w).
Proof.
  intros Hdf Hrows Hcols Hsales.
  apply f_2258_sales_missing with (d := d); try assumption.
  apply frame_empty_rows_columns. auto.
Qed.

Lemma missing_sales_column_witness :
  f_2258 0 "Category" "Revenue" (world_of doubled_frame)
  = (Raises (KeyError "Revenue"), world_of doubled_frame).
Proof.
  apply (missing_sales_column (world_of doubled_frame) 0 "Category" "Revenue"
           doubled_frame).
  - reflexivity.
  - discriminate.
  - intros E. apply (f_equal (λ m, m !! "Sales")) in E. discriminate E.
  - reflexivity.
Defined.

(** X3.  Naming one column as both category and sales raises [KeyError]
    for it once both checks have passed: [set_index] has taken the column
    out of the frame.  Nothing is logged or drawn. *)
Theorem same_column_key_error
    (w : World) (df : nat) (col : string) (d : DataFrame) (c : Column) :
  w_frames w !! df = Some d →
  df_index d ≠ [] →
  df_columns d !! col = Some c →
  numeric_kind (c_kind c) = true →
  ¬ has_duplicate (c_values c) →
  f_2258 df col col w = (Raises (KeyError col), w).
Proof.
  intros Hdf Hrows Hcol Hnum Hdup.
  apply (f_2258_same_column w df col col d Hdf
           (frame_empty_false d col c Hrows Hcol) c Hcol Hnum c Hcol
           (duplicated_any_false _ Hdup) eq_refl).
Qed.

Lemma same_column_key_error_witness :
  f_2258 0 "Sales" "Sales" (world_of sample_frame)
  = (Raises (KeyError "Sales"), world_of sample_frame).
Proof.
  apply (same_column_key_error (world_of sample_frame) 0 "Sales"
           sample_frame sample_sales).
  - reflexivity.
  - discriminate.
  - reflexivity.
  - reflexivity.
  - apply no_duplicate_check. reflexivity.
Defined.

(** X4.  A dataset without columns is empty for [df.empty] even when it
    has rows: the call logs and raises the [ValueError] of the first check
    and no [KeyError] for the column names. *)
Theorem no_columns_is_empty
    (w : World) (df : nat) (category_col sales_col : string) (d : DataFrame) :
  w_frames w !! df = Some d →
  df_columns d = ∅ →
  f_2258 df category_col sales_col w
  = (Raises (ValueError
       "DataFrame is empty, lacks sales data, or sales data is not numeric."),
     logged
       "DataFrame is empty, lacks sales data, or sales data is not numeric." w).
Proof.
  intros Hdf Hcols.
  apply f_2258_empty with (d := d); [exact Hdf|].
  unfold frame_empty. rewrite Hcols, map_size_empty. apply orb_true_r.
Qed.

Lemma no_columns_is_empty_witness :
  df_index bare_frame ≠ [] ∧
  f_2258 0 "Category" "Sales" (world_of bare_frame)
  = (Raises (ValueError
       "DataFrame is empty, lacks sales data, or sales data is not numeric."),
     logged
       "DataFrame is empty, lacks sales data, or sales data is not numeric."
       (world_of bare_frame)).
Proof.
  split; [discriminate|].
  apply (no_columns_is_empty (world_of bare_frame) 0 "Category" "Sales"
           bare_frame); reflexivity.
Defined.

(** X5.  A [ValueError] is raised for a reason: with the first message the
    dataset is empty or its sales column is not numeric; with the second
    message the first check has passed and the category column does hold a
    duplicate.  No other message is ever raised. *)
Theorem value_error_only_if
    (w : World) (df : nat) (category_col sales_col msg : string) :
  fst (f_2258 df category_col sales_col w) = Raises (ValueError msg) →
  ∃ d, w_frames w !! df = Some d ∧
    ((msg = "DataFrame is empty, lacks sales data, or sales data is not numeric."
      ∧ (df_index d = [] ∨ df_columns d = ∅ ∨
         ∃ cs, df_columns d !! sales_col = Some cs ∧
               numeric_kind (c_kind cs) = false))
     ∨
     (msg = "DataFrame contains duplicate entries in the category column."
      ∧ df_index d ≠ []
      ∧ ∃ cs cc, df_columns d !! sales_col = Some cs ∧
                 numeric_kind (c_kind cs) = true ∧
                 df_columns d !! category_col = Some cc ∧
                 has_duplicate (c_values cc))).
Proof.
  intros Hrun.
  pose proof (f_2258_run_case w df category_col sales_col) as R.
  destruct (f_2258 df category_col sales_col w) as [out w'].
  simpl in Hrun. subst out. inversion R; subst; exists d; (split; [assumption|]).
  - left. split; [reflexivity|].
    match goal with H : frame_empty d = true |- _ =>
      unfold frame_empty in H; apply orb_true_iff in H as [H|H];
      apply Nat.eqb_eq in H end.
    + left. destruct (df_index d); [reflexivity|discriminate].
    + right. left. apply map_size_empty_iff. assumption.
  - left. split; [reflexivity|]. right. right. exists cs. auto.
  - right. split; [reflexivity|].
    match goal with H : frame_empty d = false |- _ =>
      apply frame_empty_rows_columns in H as [Hr _] end.
    split; [exact Hr|]. exists cs, cc. auto.
Qed.

Lemma value_error_only_if_witness :
  ∃ d, w_frames (world_of doubled_frame) !! 0%nat = Some d ∧
    (("DataFrame contains duplicate entries in the category column."
      = "DataFrame is empty, lacks sales data, or sales data is not numeric."
      ∧ (df_index d = [] ∨ df_columns d = ∅ ∨
         ∃ cs, df_columns d !! "Sales" = Some cs ∧
               numeric_kind (c_kind cs) = false))
     ∨
     ("DataFrame contains duplicate entries in the category column."
      = "DataFrame contains duplicate entries in the category column."
      ∧ df_index d ≠ []
      ∧ ∃ cs cc, df_columns d !! "Sales" = Some cs ∧
                 numeric_kind (c_kind cs) = true ∧
                 df_columns d !! "Category" = Some cc ∧
                 has_duplicate (c_values cc))).
Proof.
  apply (value_error_only_if (world_of doubled_frame) 0 "Category" "Sales").
  reflexivity.
Defined.

(** X6.  A [KeyError] names a column that is missing from the dataset, or
    the column that was passed for both arguments; the run that raises it
    leaves the world as it was. *)
Theorem key_error_names_argument
    (w : World) (df : nat) (category_col sales_col key : string)
    (w' : World) :
  f_2258 df category_col sales_col w = (Raises (KeyError key), w') →
  w' = w ∧
  ∃ d, w_frames w !! df = Some d ∧
    ((key = sales_col ∧ df_columns d !! sales_col = None) ∨
     (key = category_col ∧ df_columns d !! category_col = None) ∨
     (key = sales_col ∧ category_col = sales_col)).
Proof.
  intros Hrun.
  pose proof (f_2258_run_case w df category_col sales_col) as R.
  rewrite Hrun in R. inversion R; subst; (split; [reflexivity|]);
    exists d; (split; [assumption|]); auto.
Qed.

Lemma key_error_names_argument_witness :
  world_of sample_frame = world_of sample_frame ∧
  ∃ d, w_frames (world_of sample_frame) !! 0%nat = Some d ∧
    (("Region" = "Sales" ∧ df_columns d !! "Sales" = None) ∨
     ("Region" = "Region" ∧ df_columns d !! "Region" = None) ∨
     ("Region" = "Sales" ∧ "Region" = "Sales")).
Proof.
  apply (key_error_names_argument (world_of sample_frame) 0 "Region" "Sales"
           "Region" (world_of sample_frame)).
  reflexivity.
Defined.

(** ** Where the bars go *)

Lemma returns_inv (w : World) (df : nat) (category_col sales_col : string)
    (h : nat) (w' : World) :
  f_2258 df category_col sales_col w = (Returns (PyAxes h), w') →
  ∃ d cs cc,
    w_frames w !! df = Some d ∧
    df_columns d !! sales_col = Some cs ∧
    df_columns d !! category_col = Some cc ∧
    h = drawn_handle w ∧
    w' = drawn (keyed_series category_col sales_col cc cs) w.
Proof.
  intros Hrun.
  pose proof (f_2258_run_case w df category_col sales_col) as R.
  rewrite Hrun in R. inversion R; subst.
  exists d, cs, cc. auto.
Qed.

Lemma open_figs_open (w : World) : w_figures w ≠ [] → open_figs w = w_figures w.
Proof. unfold open_figs. destruct (w_figures w); [congruence|reflexivity]. Qed.

Lemma open_figs_length (w : World) : (1 ≤ length (open_figs w))%nat.
Proof. unfold open_figs. destruct (w_figures w); simpl; lia. Qed.

Lemma drawn_figures_length (s : Series) (w : World) :
  length (w_figures (drawn s w)) = length (open_figs w).
Proof. unfold drawn. simpl. rewrite !length_alter. reflexivity. Qed.

Lemma drawn_figures_other (s : Series) (w : World) (i : nat) :
  i ≠ drawn_handle w →
  w_figures (drawn s w) !! i = open_figs w !! i.
Proof.
  intros Hi. unfold drawn. simpl.
  rewrite !list_lookup_alter_ne by congruence. reflexivity.
Qed.

Lemma drawn_still_open (s : Series) (w : World) : w_figures (drawn s w) ≠ [].
Proof.
  intros E. apply (f_equal length) in E.
  rewrite drawn_figures_length in E. pose proof (open_figs_length w).
  simpl in E. lia.
Qed.

Lemma drawn_handle_stable (s : Series) (w : World) :
  drawn_handle (drawn s w) = drawn_handle w.
Proof.
  unfold drawn_handle.
  rewrite (open_figs_open _ (drawn_still_open s w)), drawn_figures_length.
  reflexivity.
Qed.

Lemma current_axes_last (w : World) (ax : Axes) :
  last (w_figures w) = Some ax → current_axes w = ax.
Proof. unfold current_axes. intros ->. reflexivity. Qed.

(** X7.  With a figure open, a successful call opens no new figure: the
    handle is the axes of the current figure, the bars of the call are
    added after the bars that axes already holds, and every other open
    figure is left as it was. *)
Theorem draws_on_current_figure
    (w : World) (df : nat) (category_col sales_col : string)
    (h : nat) (w' : World) (ax0 : Axes) :
  f_2258 df category_col sales_col w = (Returns (PyAxes h), w') →
  last (w_figures w) = Some ax0 →
  S h = length (w_figures w) ∧
  length (w_figures w') = length (w_figures w) ∧
  (∀ i, i ≠ h → w_figures w' !! i = w_figures w !! i) ∧
  ∃ d cs ax,
    w_frames w !! df = Some d ∧
    df_columns d !! sales_col = Some cs ∧
    w_figures w' !! h = Some ax ∧
    ax_patches ax = ax_patches ax0 ++ bars_of (c_values cs).
Proof.
  intros Hrun Hlast.
  destruct (returns_inv _ _ _ _ _ _ Hrun)
    as (d & cs & cc & Hdf & Hsales & Hcat & -> & ->).
  assert (Hopen : w_figures w ≠ []) by (intros E; rewrite E in Hlast; discriminate).
  pose proof (open_figs_open w Hopen) as Hfigs.
  split; [|split; [|split]].
  - unfold drawn_handle. rewrite Hfigs.
    destruct (w_figures w); [congruence|]. simpl. lia.
  - rewrite drawn_figures_length, Hfigs. reflexivity.
  - intros i Hi. rewrite drawn_figures_other by exact Hi. rewrite Hfigs. reflexivity.
  - exists d, cs. eexists. repeat (split; [eassumption|]).
    split; [apply drawn_axes|]. simpl.
    rewrite (current_axes_last w ax0 Hlast). reflexivity.
Qed.

Lemma draws_on_current_figure_witness :
  (S 1 = length (w_figures busy_world) ∧
   length (w_figures (snd (f_2258 1 "Category" "Sales" busy_world)))
   = length (w_figures busy_world) ∧
   (∀ i, i ≠ 1%nat →
         w_figures (snd (f_2258 1 "Category" "Sales" busy_world)) !! i
         = w_figures busy_world !! i) ∧
   ∃ d cs ax,
     w_frames busy_world !! 1%nat = Some d ∧
     df_columns d !! "Sales" = Some cs ∧
     w_figures (snd (f_2258 1 "Category" "Sales" busy_world)) !! 1%nat = Some ax ∧
     ax_patches ax
     = [mkRectangle 0 (SInt 7); mkRectangle 1 (SInt 9)] ++ bars_of (c_values cs)).
Proof.
  apply (draws_on_current_figure busy_world 1 "Category" "Sales" 1
           (snd (f_2258 1 "Category" "Sales" busy_world))
           {| ax_patches := [mkRectangle 0 (SInt 7); mkRectangle 1 (SInt 9)];
              ax_title := "Stock"; ax_xlabel := ""; ax_ylabel := "Units";
              ax_xticklabels := [] |}); reflexivity.
Defined.

(** X8.  With no figure open, a successful call opens exactly one figure;
    its axes is the handle and holds the bars of this call only: one bar
    per sales cell, bar [i] in slot [i] and as high as cell [i] (0 for a
    missing cell), hence one per row of a well-formed dataset. *)
Theorem opens_one_figure
    (w : World) (df : nat) (category_col sales_col : string)
    (h : nat) (w' : World) :
  f_2258 df category_col sales_col w = (Returns (PyAxes h), w') →
  w_figures w = [] →
  h = 0%nat ∧
  ∃ d cs ax,
    w_frames w !! df = Some d ∧
    df_columns d !! sales_col = Some cs ∧
    w_figures w' = [ax] ∧
    ax_patches ax = bars_of (c_values cs) ∧
    length (ax_patches ax) = length (c_values cs) ∧
    (df_wf d → length (ax_patches ax) = length (df_index d)) ∧
    (∀ i v, c_values cs !! i = Some v →
            ∃ r, ax_patches ax !! i = Some r ∧ bar_shows i v r).
Proof.
  intros Hrun Hnone.
  destruct (returns_inv _ _ _ _ _ _ Hrun)
    as (d & cs & cc & Hdf & Hsales & Hcat & -> & ->).
  unfold drawn, drawn_handle, open_figs. rewrite Hnone. simpl.
  split; [reflexivity|].
  exists d, cs. eexists. repeat (split; [eassumption|]).
  split; [reflexivity|]. simpl.
  split; [reflexivity|]. split; [apply bars_of_length|]. split.
  - intros Hwf. rewrite bars_of_length. apply (Hwf sales_col cs Hsales).
  - intros i v Hv. exists (mkRectangle i (fillna0 v)).
    split; [apply bars_of_lookup, Hv|apply fillna0_shows].
Qed.

Lemma opens_one_figure_witness :
  0%nat = 0%nat ∧
  ∃ d cs ax,
    w_frames (world_of single_frame) !! 0%nat = Some d ∧
    df_columns d !! "Sales" = Some cs ∧
    w_figures (snd (f_2258 0 "Category" "Sales" (world_of single_frame))) = [ax] ∧
    ax_patches ax = bars_of (c_values cs) ∧
    length (ax_patches ax) = length (c_values cs) ∧
    (df_wf d → length (ax_patches ax) = length (df_index d)) ∧
    (∀ i v, c_values cs !! i = Some v →
            ∃ r, ax_patches ax !! i = Some r ∧ bar_shows i v r).
Proof.
  apply (opens_one_figure (world_of single_frame) 0 "Category" "Sales" 0
           (snd (f_2258 0 "Category" "Sales" (world_of single_frame))));
    reflexivity.
Defined.

(** X9.  Two successful calls in a row draw on one axes: the second call
    returns the handle of the first, and the axes then holds the bars of
    the first call, as they were, followed by one bar per row of the
    second (well-formed) dataset, bar [i] as high as its sales cell [i]. *)
Theorem second_call_adds_bars
    (w : World) (df1 df2 : nat) (cat1 sales1 cat2 sales2 : string)
    (h1 h2 : nat) (w1 w2 : World) (d2 : DataFrame) :
  f_2258 df1 cat1 sales1 w = (Returns (PyAxes h1), w1) →
  f_2258 df2 cat2 sales2 w1 = (Returns (PyAxes h2), w2) →
  w_frames w !! df2 = Some d2 →
  df_wf d2 →
  h2 = h1 ∧
  ∃ ax1 ax2 cs2,
    w_figures w1 !! h1 = Some ax1 ∧
    w_figures w2 !! h1 = Some ax2 ∧
    df_columns d2 !! sales2 = Some cs2 ∧
    ax_patches ax2 = ax_patches ax1 ++ bars_of (c_values cs2) ∧
    length (ax_patches ax2)
    = (length (ax_patches ax1) + length (df_index d2))%nat ∧
    (∀ i r, ax_patches ax1 !! i = Some r → ax_patches ax2 !! i = Some r) ∧
    (∀ i v, c_values cs2 !! i = Some v →
            ∃ r, ax_patches ax2 !! (length (ax_patches ax1) + i)%nat = Some r ∧
                 bar_shows i v r).
Proof.
  intros Hrun1 Hrun2 Hd2 Hwf.
  destruct (returns_inv _ _ _ _ _ _ Hrun1)
    as (d1 & cs1 & cc1 & Hdf1 & Hsales1 & Hcat1 & -> & ->).
  destruct (returns_inv _ _ _ _ _ _ Hrun2)
    as (d2' & cs2 & cc2 & Hdf2 & Hsales2 & Hcat2 & -> & ->).
  assert (d2' = d2) as -> by (simpl in Hdf2; congruence).
  set (s1 := keyed_series cat1 sales1 cc1 cs1) in *.
  set (s2 := keyed_series cat2 sales2 cc2 cs2).
  split; [apply drawn_handle_stable|].
  pose proof (open_figs_current (drawn s1 w)) as Hcur.
  rewrite (open_figs_open _ (drawn_still_open s1 w)), drawn_handle_stable in Hcur.
  set (ax1 := current_axes (drawn s1 w)) in *.
  set (ax2 := set_ylabel "Sales" (draw_bars s2 "Sales Report by Category" ax1)).
  assert (Hpatches : ax_patches ax2 = ax_patches ax1 ++ bars_of (c_values cs2))
    by reflexivity.
  destruct (bars_added_app _ _ _ Hpatches) as [Hlen Hbars].
  exists ax1, ax2, cs2.
  split; [exact Hcur|]. split.
  { rewrite <- (drawn_handle_stable s1 w). apply drawn_axes. }
  split; [exact Hsales2|]. split; [exact Hpatches|]. split; [|split].
  - rewrite Hlen, (Hwf sales2 cs2 Hsales2). reflexivity.
  - intros i r Hr. rewrite Hpatches. apply lookup_app_l_Some, Hr.
  - exact Hbars.
Qed.

Lemma second_call_adds_bars_witness :
  0%nat = 0%nat ∧
  ∃ ax1 ax2 cs2,
    w_figures (snd (f_2258 0 "Category" "Sales" test_world)) !! 0%nat = Some ax1 ∧
    w_figures (snd (f_2258 1 "Category" "Sales"
                      (snd (f_2258 0 "Category" "Sales" test_world)))) !! 0%nat
    = Some ax2 ∧
    df_columns single_frame !! "Sales" = Some cs2 ∧
    ax_patches ax2 = ax_patches ax1 ++ bars_of (c_values cs2) ∧
    length (ax_patches ax2)
    = (length (ax_patches ax1) + length (df_index single_frame))%nat ∧
    (∀ i r, ax_patches ax1 !! i = Some r → ax_patches ax2 !! i = Some r) ∧
    (∀ i v, c_values cs2 !! i = Some v →
            ∃ r, ax_patches ax2 !! (length (ax_patches ax1) + i)%nat = Some r ∧
                 bar_shows i v r).
Proof.
  apply (second_call_adds_bars test_world 0 1 "Category" "Sales" "Category" "Sales"
           0 0 (snd (f_2258 0 "Category" "Sales" test_world))
           (snd (f_2258 1 "Category" "Sales"
                   (snd (f_2258 0 "Category" "Sales" test_world))))
           single_frame);
    try reflexivity.
  exact single_frame_wf.
Defined.

(** X10.  Only a [ValueError] is logged: a run that returns, or that
    raises anything else, leaves the log as it was. *)
Theorem log_only_on_value_error
    (w : World) (df : nat) (category_col sales_col : string)
    (out : outcome pyobj) (w' : World) :
  f_2258 df category_col sales_col w = (out, w') →
  (∀ msg, out ≠ Raises (ValueError msg)) →
  w_log w' = w_log w.
Proof.
  intros Hrun Hnot.
  pose proof (f_2258_run_case w df category_col sales_col) as R.
  rewrite Hrun in R.
  inversion R; subst; try reflexivity; exfalso; eapply Hnot; reflexivity.
Qed.

Lemma log_only_on_value_error_witness :
  w_log (snd (f_2258 0 "Category" "Sales" (world_of sample_frame)))
  = w_log (world_of sample_frame).
Proof.
  apply (log_only_on_value_error (world_of sample_frame) 0 "Category" "Sales"
           (Returns (PyAxes 0))
           (snd (f_2258 0 "Category" "Sales" (world_of sample_frame)))).
  - reflexivity.
  - intros msg. discriminate.
Defined.

(** ** Inputs at the edge of the checks *)

(** X11.  A boolean sales column passes the dtype check (kind 'b' is in
    'biufc') and the duplicate check, and is then refused by the plot with
    [TypeError].  Nothing is logged, shown or written to a frame and no
    bar is drawn; the open figures are left as they are, and when none was
    open one figure with a blank axes is left behind. *)
Theorem boolean_sales_type_error
    (w : World) (df : nat) (category_col sales_col : string)
    (d : DataFrame) (cs cc : Column) :
  w_frames w !! df = Some d →
  df_index d ≠ [] →
  df_columns d !! sales_col = Some cs →
  c_kind cs = KBool →
  df_columns d !! category_col = Some cc →
  ¬ has_duplicate (c_values cc) →
  category_col ≠ sales_col →
  ∃ w',
    f_2258 df category_col sales_col w
    = (Raises (TypeError "no numeric data to plot"), w') ∧
    w_log w' = w_log w ∧ w_shown w' = w_shown w ∧ w_frames w' = w_frames w ∧
    (w_figures w ≠ [] → w_figures w' = w_figures w) ∧
    (w_figures w = [] → w_figures w' = [empty_axes]).
Proof.
  intros Hdf Hrows Hsales Hkind Hcat Hdup Hne.
  assert (Hnum : numeric_kind (c_kind cs) = true) by (rewrite Hkind; reflexivity).
  assert (Hplot : plottable (c_kind cs) = false) by (rewrite Hkind; reflexivity).
  exists (set_figures (open_figs w) w). split.
  - apply (f_2258_not_plottable w df category_col sales_col d Hdf
             (frame_empty_false d sales_col cs Hrows Hsales) cs Hsales Hnum
             cc Hcat (duplicated_any_false _ Hdup) Hne Hplot).
  - repeat (split; [reflexivity|]). simpl. unfold open_figs. split.
    + destruct (w_figures w); [congruence|reflexivity].
    + intros ->. reflexivity.
Qed.

Lemma boolean_sales_type_error_witness :
  ∃ w',
    f_2258 0 "Category" "Sales" (world_of flag_frame)
    = (Raises (TypeError "no numeric data to plot"), w') ∧
    w_log w' = w_log (world_of flag_frame) ∧
    w_shown w' = w_shown (world_of flag_frame) ∧
    w_frames w' = w_frames (world_of flag_frame) ∧
    (w_figures (world_of flag_frame) ≠ [] →
     w_figures w' = w_figures (world_of flag_frame)) ∧
    (w_figures (world_of flag_frame) = [] → w_figures w' = [empty_axes]).
Proof.
  apply (boolean_sales_type_error (world_of flag_frame) 0 "Category" "Sales"
           flag_frame
           (mkColumn KBool [SBool true; SBool false])
           (mkColumn KObject [SStr "Home"; SStr "Books"]));
    try reflexivity; try discriminate.
  apply no_duplicate_check. reflexivity.
Defined.



(** X13.  A dataset of one row cannot fail the duplicate check: with
    sales of an integer, unsigned, float or complex dtype and a category
    column that is another column, the call returns and adds exactly one
    bar to the axes. *)
Theorem single_row_one_bar
    (w : World) (df : nat) (category_col sales_col : string)
    (d : DataFrame) (cs cc : Column) :
  w_frames w !! df = Some d →
  df_wf d →
  length (df_index d) = 1%nat →
  df_columns d !! sales_col = Some cs →
  numeric_kind (c_kind cs) = true →
  c_kind cs ≠ KBool →
  df_columns d !! category_col = Some cc →
  category_col ≠ sales_col →
  ∃ h w' ax,
    f_2258 df category_col sales_col w = (Returns (PyAxes h), w') ∧
    w_figures w' !! h = Some ax ∧
    length (ax_patches ax) = S (length (current_patches w)).
Proof.
  intros Hdf Hwf Hone Hsales Hnum Hbool Hcat Hne.
  assert (Hrows : df_index d ≠ []).
  { intros E. rewrite E in Hone. discriminate. }
  assert (Hdup : ¬ has_duplicate (c_values cc)).
  { intros (i & j & a & b & Hij & Hi & Hj & _).
    apply lookup_lt_Some in Hi, Hj.
    rewrite (Hwf category_col cc Hcat), Hone in Hi, Hj. lia. }
  destruct (drawn_complete category_col sales_col cc cs w)
    as (ax & Hax & Hpatches & _).
  exists (drawn_handle w), (drawn (keyed_series category_col sales_col cc cs) w), ax.
  split; [|split; [exact Hax|]].
  - apply (f_2258_success w df category_col sales_col d Hdf
             (frame_empty_false d sales_col cs Hrows Hsales) cs Hsales Hnum
             cc Hcat (duplicated_any_false _ Hdup) Hne
             (numeric_not_bool_plottable _ Hnum Hbool)).
  - rewrite Hpatches, length_app, bars_of_length, (Hwf sales_col cs Hsales), Hone.
    lia.
Qed.

Lemma single_row_one_bar_witness :
  ∃ h w' ax,
    f_2258 1 "Category" "Sales" busy_world = (Returns (PyAxes h), w') ∧
    w_figures w' !! h = Some ax ∧
    length (ax_patches ax) = S (length (current_patches busy_world)).
Proof.
  apply (single_row_one_bar busy_world 1 "Category" "Sales" single_frame
           (mkColumn KInt [SInt 1000])
           (mkColumn KObject [SStr "Electronics"]));
    try reflexivity; try discriminate.
  exact single_frame_wf.
Defined.

(** ** The frames the tests derive from the sample *)

Lemma no_duplicate_take (n : nat) (vs : list scalar) :
  ¬ has_duplicate vs → ¬ has_duplicate (take n vs).
Proof.
  intros H (i & j & a & b & Hij & Hi & Hj & Hab). apply H.
  apply lookup_take_Some in Hi as [Hi _], Hj as [Hj _].
  exists i, j, a, b. auto.
Qed.

Lemma duplicate_app_self (vs : list scalar) :
  vs ≠ [] → has_duplicate (vs ++ vs).
Proof.
  destruct vs as [|a l]; [congruence|]. intros _.
  exists 0%nat, (length (a :: l)), a, a. split; [discriminate|].
  split; [reflexivity|]. split; [|apply key_eqb_refl].
  rewrite lookup_app_r by lia. rewrite Nat.sub_diag. reflexivity.
Qed.

Lemma pd_concat2_self (d : DataFrame) :
  pd_concat2 d d
  = Some {| df_index_name := df_index_name d;
            df_index := df_index d ++ df_index d;
            df_columns :=
              map_zip_with
                (λ ca cb, mkColumn (c_kind ca) (c_values ca ++ c_values cb))
                (df_columns d) (df_columns d) |}.
Proof.
  unfold pd_concat2. rewrite decide_True by reflexivity.
  rewrite decide_True by reflexivity. reflexivity.
Qed.

(** X14.  Stacking a dataset on itself always trips the duplicate check:
    for a well-formed dataset with rows, a numeric sales column and a
    category column, the call on
    [pd.concat([df, df]).reset_index(drop=True)] raises the
    duplicate-category [ValueError]. *)
Theorem doubled_dataset_rejected
    (w : World) (df : nat) (category_col sales_col : string)
    (d dd : DataFrame) (cs cc : Column) :
  pd_concat2 d d = Some dd →
  w_frames w !! df = Some (reset_index_drop dd) →
  df_wf d →
  df_index d ≠ [] →
  df_columns d !! sales_col = Some cs →
  numeric_kind (c_kind cs) = true →
  df_columns d !! category_col = Some cc →
  f_2258 df category_col sales_col w
  = (Raises (ValueError
       "DataFrame contains duplicate entries in the category column."),
     logged "DataFrame contains duplicate entries in the category column." w).
Proof.
  intros Hcc Hdf Hwf Hrows Hsales Hnum Hcat.
  rewrite pd_concat2_self in Hcc. injection Hcc as <-.
  assert (Hvals : c_values cc ≠ []).
  { intros E. apply (f_equal length) in E.
    rewrite (Hwf category_col cc Hcat) in E.
    destruct (df_index d); [congruence|discriminate]. }
  eapply (f_2258_duplicate w df category_col sales_col _ Hdf).
  - unfold frame_empty, reset_index_drop. simpl.
    apply orb_false_iff. split; apply Nat.eqb_neq.
    + rewrite length_fmap, length_seq, length_app.
      destruct (df_index d); [congruence|simpl; lia].
    + intros E. apply map_size_empty_iff in E.
      apply (f_equal (λ m, m !! sales_col)) in E.
      rewrite map_lookup_zip_with, Hsales, lookup_empty in E. discriminate.
  - simpl. rewrite map_lookup_zip_with, Hsales. reflexivity.
  - exact Hnum.
  - simpl. rewrite map_lookup_zip_with, Hcat. reflexivity.
  - simpl. apply duplicated_any_iff, duplicate_app_self, Hvals.
Qed.

Lemma doubled_dataset_rejected_witness :
  ∃ dd, pd_concat2 sample_frame sample_frame = Some dd ∧
  f_2258 0 "Category" "Sales" (world_of (reset_index_drop dd))
  = (Raises (ValueError
       "DataFrame contains duplicate entries in the category column."),
     logged "DataFrame contains duplicate entries in the category column."
       (world_of (reset_index_drop dd))).
Proof.
  eexists. split; [apply pd_concat2_self|].
  eapply (doubled_dataset_rejected _ 0 "Category" "Sales" sample_frame _
            sample_sales sample_categories).
  - apply pd_concat2_self.
  - unfold world_of. simpl. apply lookup_singleton_eq.
  - exact sample_frame_wf.
  - discriminate.
  - reflexivity.
  - reflexivity.
  - reflexivity.
Defined.

(** X15.  [df.head(n)] of a valid dataset is valid: for a well-formed
    dataset with rows, plottable numeric sales and duplicate-free
    categories in another column, and with no figure open, the call on the
    first [n >= 1] rows returns an axes whose bars are those of the first
    [n] sales cells, [min n rows] of them. *)
Theorem head_draws_first_rows
    (w : World) (df : nat) (category_col sales_col : string)
    (d : DataFrame) (n : nat) (cs cc : Column) :
  w_frames w !! df = Some (DataFrame_head n d) →
  df_wf d →
  n ≠ 0%nat →
  df_index d ≠ [] →
  df_columns d !! sales_col = Some cs →
  numeric_kind (c_kind cs) = true →
  c_kind cs ≠ KBool →
  df_columns d !! category_col = Some cc →
  ¬ has_duplicate (c_values cc) →
  category_col ≠ sales_col →
  w_figures w = [] →
  ∃ h w' ax,
    f_2258 df category_col sales_col w = (Returns (PyAxes h), w') ∧
    w_figures w' !! h = Some ax ∧
    ax_patches ax = bars_of (take n (c_values cs)) ∧
    length (ax_patches ax) = Nat.min n (length (df_index d)).
Proof.
  intros Hdf Hwf Hn Hrows Hsales Hnum Hbool Hcat Hdup Hne Hfigs.
  set (cs' := mkColumn (c_kind cs) (take n (c_values cs))).
  set (cc' := mkColumn (c_kind cc) (take n (c_values cc))).
  assert (Hsales' : df_columns (DataFrame_head n d) !! sales_col = Some cs').
  { simpl. rewrite lookup_fmap, Hsales. reflexivity. }
  assert (Hcat' : df_columns (DataFrame_head n d) !! category_col = Some cc').
  { simpl. rewrite lookup_fmap, Hcat. reflexivity. }
  assert (Hrows' : df_index (DataFrame_head n d) ≠ []).
  { simpl. destruct n; [congruence|]. destruct (df_index d); [congruence|discriminate]. }
  destruct (drawn_complete category_col sales_col cc' cs' w)
    as (ax & Hax & Hpatches & _).
  rewrite (current_patches_closed w Hfigs) in Hpatches. simpl in Hpatches.
  exists (drawn_handle w), (drawn (keyed_series category_col sales_col cc' cs') w), ax.
  split; [|split; [exact Hax|split; [exact Hpatches|]]].
  - apply (f_2258_success w df category_col sales_col _ Hdf
             (frame_empty_false _ sales_col cs' Hrows' Hsales') cs' Hsales' Hnum
             cc' Hcat'
             (duplicated_any_false _ (no_duplicate_take n _ Hdup)) Hne
             (numeric_not_bool_plottable _ Hnum Hbool)).
  - rewrite Hpatches, bars_of_length, length_take, (Hwf sales_col cs Hsales).
    reflexivity.
Qed.

Lemma head_draws_first_rows_witness :
  ∃ h w' ax,
    f_2258 0 "Category" "Sales" (world_of (DataFrame_head 2 sample_frame))
    = (Returns (PyAxes h), w') ∧
    w_figures w' !! h = Some ax ∧
    ax_patches ax = bars_of (take 2 (c_values sample_sales)) ∧
    length (ax_patches ax) = Nat.min 2 (length (df_index sample_frame)).
Proof.
  apply (head_draws_first_rows (world_of (DataFrame_head 2 sample_frame)) 0
           "Category" "Sales" sample_frame 2 sample_sales sample_categories).
  - unfold world_of. simpl. apply lookup_singleton_eq.
  - exact sample_frame_wf.
  - discriminate.
  - discriminate.
  - reflexivity.
  - reflexivity.
  - discriminate.
  - reflexivity.
  - apply no_duplicate_check. reflexivity.
  - discriminate.
  - reflexivity.
Defined.

Example head_of_sample : DataFrame_head 1 sample_frame = single_frame.
Proof. reflexivity. Qed.

Example doubled_sample_rows :
  (λ d, length (df_index d)) <$> (reset_index_drop <$> pd_concat2 sample_frame sample_frame)
  = Some 10%nat.
Proof. reflexivity. Qed.

(** ** Validation does not look at pyplot or the log *)

(** X16.  Which exception a call raises is decided by the dataset and the
    two names alone: in any other world that holds the same frame behind
    the reference, whatever its log and open figures, the call raises the
    same exception. *)
Theorem exception_independent_of_world
    (w1 w2 : World) (df : nat) (category_col sales_col : string) (e : exn) :
  w_frames w1 !! df = w_frames w2 !! df →
  fst (f_2258 df category_col sales_col w1) = Raises e →
  fst (f_2258 df category_col sales_col w2) = Raises e.
Proof.
  intros Hsame Hrun.
  destruct (w_frames w2 !! df) as [d|] eqn:Hdf2.
  2: { rewrite f_2258_dangling in Hrun by exact Hsame.
       rewrite f_2258_dangling by exact Hdf2. exact Hrun. }
  destruct (frame_empty d) eqn:Hrows.
  { erewrite f_2258_empty in Hrun by eassumption.
    erewrite f_2258_empty by eassumption. exact Hrun. }
  destruct (df_columns d !! sales_col) as [cs|] eqn:Hsales.
  2: { erewrite f_2258_sales_missing in Hrun by eassumption.
       erewrite f_2258_sales_missing by eassumption. exact Hrun. }
  destruct (numeric_kind (c_kind cs)) eqn:Hnum.
  2: { erewrite f_2258_not_numeric in Hrun by eassumption.
       erewrite f_2258_not_numeric by eassumption. exact Hrun. }
  destruct (df_columns d !! category_col) as [cc|] eqn:Hcat.
  2: { erewrite f_2258_category_missing in Hrun by eassumption.
       erewrite f_2258_category_missing by eassumption. exact Hrun. }
  destruct (existsb id (duplicated_flags [] (c_values cc))) eqn:Hdup.
  { erewrite f_2258_duplicate in Hrun by eassumption.
    erewrite f_2258_duplicate by eassumption. exact Hrun. }
  destruct (decide (category_col = sales_col)) as [Heq|Hne].
  { erewrite f_2258_same_column in Hrun by eassumption.
    erewrite f_2258_same_column by eassumption. exact Hrun. }
  destruct (plottable (c_kind cs)) eqn:Hplot.
  2: { erewrite f_2258_not_plottable in Hrun by eassumption.
       erewrite f_2258_not_plottable by eassumption. exact Hrun. }
  erewrite f_2258_success in Hrun by eassumption. discriminate Hrun.
Qed.

Lemma exception_independent_of_world_witness :
  fst (f_2258 0 "Category" "Sales"
         {| w_frames := {[ 0%nat := doubled_frame ]};
            w_log := [mkLogRecord INFO "started"];
            w_figures := [empty_axes]; w_shown := [] |})
  = Raises (ValueError MSG_DUPLICATE).
Proof.
  apply (exception_independent_of_world (world_of doubled_frame)
           {| w_frames := {[ 0%nat := doubled_frame ]};
              w_log := [mkLogRecord INFO "started"];
              w_figures := [empty_axes]; w_shown := [] |}
           0 "Category" "Sales" (ValueError MSG_DUPLICATE));
    reflexivity.
Defined.

(** [None] and nan are different keys: a category column that holds one
    of each has no duplicate, and the dataset is charted. *)
Example mixed_sentinels_are_charted :
  length <$> bars_drawn (f_2258 0 "Category" "Sales" (world_of mixed_frame))
  = Some 2%nat.
Proof. reflexivity. Qed.

(** ** The chart of a valid dataset *)

(** X17.  For a well-formed dataset with rows, a sales column of integer,
    unsigned, float or complex dtype, and a duplicate-free category column
    that is another column, called while the current axes holds no bar (no
    figure open, or a blank one), [f_2258] returns a handle to an axes
    with exactly one bar per row, bar [i] in slot [i] and as high as the
    sales cell of row [i] (0 for a missing cell), the category cells as
    tick labels, the y label "Sales" and the title
    "Sales Report by Category". *)
Theorem valid_dataset_one_bar_per_row
    (w : World) (df : nat) (category_col sales_col : string)
    (d : DataFrame) (cs cc : Column) :
  w_frames w !! df = Some d →
  df_wf d →
  df_index d ≠ [] →
  df_columns d !! sales_col = Some cs →
  numeric_kind (c_kind cs) = true →
  c_kind cs ≠ KBool →
  df_columns d !! category_col = Some cc →
  ¬ has_duplicate (c_values cc) →
  category_col ≠ sales_col →
  current_patches w = [] →
  ∃ h w' ax,
    f_2258 df category_col sales_col w = (Returns (PyAxes h), w') ∧
    w_figures w' !! h = Some ax ∧
    length (ax_patches ax) = length (df_index d) ∧
    (∀ i v, c_values cs !! i = Some v →
            ∃ r, ax_patches ax !! i = Some r ∧ bar_shows i v r) ∧
    ax_xticklabels ax = c_values cc ∧
    ax_ylabel ax = "Sales" ∧
    ax_title ax = "Sales Report by Category".
Proof.
  intros Hdf Hwf Hrows Hsales Hnum Hbool Hcat Hdup Hne Hblank.
  destruct (drawn_complete category_col sales_col cc cs w)
    as (ax & Hax & Hpatches & Htitle & Hylabel & Hticks).
  destruct (bars_added_app _ _ _ Hpatches) as [Hlen Hbars].
  rewrite Hblank in Hlen, Hbars. simpl in Hlen, Hbars.
  exists (drawn_handle w), (drawn (keyed_series category_col sales_col cc cs) w), ax.
  split; [|split; [exact Hax|split; [|split; [exact Hbars|auto]]]].
  - apply (f_2258_success w df category_col sales_col d Hdf
             (frame_empty_false d sales_col cs Hrows Hsales) cs Hsales Hnum
             cc Hcat (duplicated_any_false _ Hdup) Hne
             (numeric_not_bool_plottable _ Hnum Hbool)).
  - rewrite Hlen. apply (Hwf sales_col cs Hsales).
Qed.

Lemma valid_dataset_one_bar_per_row_witness :
  ∃ h w' ax,
    f_2258 0 "Category" "Sales" blank_world = (Returns (PyAxes h), w') ∧
    w_figures w' !! h = Some ax ∧
    length (ax_patches ax) = length (df_index sample_frame) ∧
    (∀ i v, c_values sample_sales !! i = Some v →
            ∃ r, ax_patches ax !! i = Some r ∧ bar_shows i v r) ∧
    ax_xticklabels ax = c_values sample_categories ∧
    ax_ylabel ax = "Sales" ∧
    ax_title ax = "Sales Report by Category".
Proof.
  apply (valid_dataset_one_bar_per_row blank_world 0 "Category" "Sales"
           sample_frame sample_sales sample_categories).
  - reflexivity.
  - exact sample_frame_wf.
  - discriminate.
  - reflexivity.
  - reflexivity.
  - discriminate.
  - reflexivity.
  - apply no_duplicate_check. reflexivity.
  - discriminate.
  - reflexivity.
Defined.
